(** * ETL pipeline for datacenter energy data: cleaning and warehouse load

    A shallow embedding of

    - [scripts/02_data_cleaning.py]      (class [DataCleaner]),
    - [scripts/03_data_transformation.py] (class [DatabaseLoader] and the
      script body), and
    - [scripts/load_data.py]             (function [load_eia_prices]),

    followed by the properties of the load stage and of the cleaner.

    Conventions of the model.

    - A pandas DataFrame is a list of records, one record per row, in row
      order.  A CSV file is modelled by the table it holds.
    - A float64 cell is an [option Q]: [None] is NaN (a missing value), and
      the arithmetic on present values is exact rational arithmetic.  The
      rounding of binary64 operations is not modelled.
    - [print] appends a [message] to the output of the run; a message built
      with [Warning] is a line the source prints with its warning sign.
    - Python exceptions are values of [exn]; a computation that raises keeps
      the state it had reached. *)

From Stdlib Require Import ZArith QArith Qround List String Ascii Bool Lia Lqa.
Import ListNotations.

Local Open Scope string_scope.
Local Open Scope list_scope.
Local Open Scope Z_scope.

(** ** Floats with NaN *)

Definition float := option Q.

Definition of_int (n : Z) : float := Some (inject_Z n).

(** [a <= b] on floats: false as soon as one side is NaN. *)
Definition fle (a b : float) : bool :=
  match a, b with
  | Some x, Some y => Qle_bool x y
  | _, _ => false
  end.

Definition fmul (a b : float) : float :=
  match a, b with
  | Some x, Some y => Some (x * y)%Q
  | _, _ => None
  end.

Definition fadd (a b : float) : float :=
  match a, b with
  | Some x, Some y => Some (x + y)%Q
  | _, _ => None
  end.

Definition fdiv (a b : float) : float :=
  match a, b with
  | Some x, Some y => Some (x / y)%Q
  | _, _ => None
  end.

Definition notna {A} (a : option A) : bool :=
  match a with Some _ => true | None => false end.

(** [Series.clip(lower, upper)]: values below [lower] become [lower], values
    above [upper] become [upper], NaN stays NaN. *)
Definition clip (lower upper : Q) (v : float) : float :=
  match v with
  | None => None
  | Some x =>
      if negb (Qle_bool lower x) then Some lower
      else if negb (Qle_bool x upper) then Some upper
      else Some x
  end.

(** Python's [round(x, 2)]: to the nearest hundredth, ties to the even
    hundredth. *)
Definition round_half_even (q : Q) : Z :=
  let n := Qfloor q in
  let frac := (q - inject_Z n)%Q in
  match (frac ?= 1 # 2)%Q with
  | Lt => n
  | Gt => n + 1
  | Eq => if Z.even n then n else n + 1
  end.

Definition round2 (v : float) : float :=
  match v with
  | None => None
  | Some x => Some (inject_Z (round_half_even (x * 100)) / 100)%Q
  end.

(** ** Dates *)

Record date := mkDate { year : Z; month : Z; day : Z }.

Definition date_eqb (a b : date) : bool :=
  (year a =? year b) && (month a =? month b) && (day a =? day b).

Definition date_leb (a b : date) : bool :=
  (year a <? year b)
  || ((year a =? year b)
      && ((month a <? month b) || ((month a =? month b) && (day a <=? day b)))).

(** A date cell of a CSV file as [pd.to_datetime] sees it. *)
Inductive date_cell :=
| DateCell (d : date)
| BlankCell
| BadCell (text : string).

(** A [period] cell of the raw price file under [format='%Y-%m'].  The
    statistics API sorts by period and every record carries one, so a blank
    period is not part of the model. *)
Inductive period_cell :=
| Period (y m : Z)
| BadPeriod (text : string).

(** ** Output, exceptions and the monad of a run *)

Inductive message :=
| Info (text : string) (args : list Z)
| Warning (text : string) (args : list Z)
| Error (text : string).

Definition is_warning (m : message) : bool :=
  match m with Warning _ _ => true | _ => false end.

Definition warnings (out : list message) : nat :=
  List.length (filter is_warning out).

Inductive exn :=
| FileNotFoundError (what : string)
| KeyError (column : string)
| ValueError (what : string).

Definition exn_text (e : exn) : string :=
  match e with
  | FileNotFoundError w => ("FileNotFoundError: " ++ w)%string
  | KeyError c => ("KeyError: " ++ c)%string
  | ValueError w => ("ValueError: " ++ w)%string
  end.

(** A run over a state [St]: the state reached, what was printed, and the
    value returned or the exception raised. *)
Definition Run (St A : Type) : Type := St -> St * list message * (exn + A).

Definition ret {St A} (a : A) : Run St A := fun s => (s, [], inr a).

Definition bind {St A B} (c : Run St A) (k : A -> Run St B) : Run St B :=
  fun s =>
    match c s with
    | (s1, out1, inl e) => (s1, out1, inl e)
    | (s1, out1, inr a) =>
        match k a s1 with
        | (s2, out2, r) => (s2, (out1 ++ out2)%list, r)
        end
    end.

Definition raise {St A} (e : exn) : Run St A := fun s => (s, [], inl e).

Definition print {St} (m : message) : Run St unit := fun s => (s, [m], inr tt).

Definition get {St} : Run St St := fun s => (s, [], inr s).

Definition modify {St} (f : St -> St) : Run St unit := fun s => (f s, [], inr tt).

Definition lift_result {St A} (r : exn + A) : Run St A := fun s => (s, [], r).

Declare Scope run_scope.
Delimit Scope run_scope with run.
Notation "x <- c ;; k" := (bind c (fun x => k))
  (at level 61, c at next level, right associativity) : run_scope.
Notation "c ;; k" := (bind c (fun _ => k))
  (at level 61, right associativity) : run_scope.
Local Open Scope run_scope.

Definition state_of {St A} (r : St * list message * (exn + A)) : St := fst (fst r).
Definition output_of {St A} (r : St * list message * (exn + A)) : list message :=
  snd (fst r).
Definition result_of {St A} (r : St * list message * (exn + A)) : exn + A := snd r.

Definition len {A} (l : list A) : Z := Z.of_nat (List.length l).

(** ** Configuration ([config.py]) *)

Definition US_STATES : list string :=
  [ "AL"; "AK"; "AZ"; "AR"; "CA"; "CO"; "CT"; "DE"; "FL"; "GA";
    "HI"; "ID"; "IL"; "IN"; "IA"; "KS"; "KY"; "LA"; "ME"; "MD";
    "MA"; "MI"; "MN"; "MS"; "MO"; "MT"; "NE"; "NV"; "NH"; "NJ";
    "NM"; "NY"; "NC"; "ND"; "OH"; "OK"; "OR"; "PA"; "RI"; "SC";
    "SD"; "TN"; "TX"; "UT"; "VT"; "VA"; "WA"; "WV"; "WI"; "WY"; "DC" ].

Definition isin (s : option string) (l : list string) : bool :=
  match s with
  | None => false
  | Some x => existsb (String.eqb x) l
  end.

(** ** Tables *)

(** The raw price snapshot written by the collector.  The columns the
    cleaner and the loaders never look at are left out. *)
Module RawPrice.
Record row := mk
    { period : period_cell;
      stateid : option string;
      sectorName : option string;
      price : float;
      sales : float }.
End RawPrice.

(** The price frame after the rename and the date conversion. *)
Module Price.
Record row := mk
    { date : date;
      state : option string;
      sectorName : option string;
      price_cents_per_kwh : float;
      sales_mwh : float }.
End Price.

(** A row of [eia_prices_clean.csv]. *)
Module CleanPrice.
Record row := mk
    { date : date;
      state : option string;
      sectorName : option string;
      price_cents_per_kwh : float;
      sales_mwh : float;
      price_per_kwh : float }.
End CleanPrice.

(** A row of a raw facility snapshot. *)
Module RawDc.
Record row := mk
    { name : option string;
      company : option string;
      city : option string;
      state : option string;
      latitude : float;
      longitude : float;
      capacity_mw : float;
      is_ai_focused : option bool;
      opening_date : date_cell;
      renewable_pct : float }.
End RawDc.

(** A row of [datacenters_clean.csv]. *)
Module CleanDc.
Record row := mk
    { name : option string;
      company : option string;
      city : option string;
      state : option string;
      latitude : float;
      longitude : float;
      capacity_mw : float;
      is_ai_focused : option bool;
      opening_date : option date;
      renewable_pct : float }.
End CleanDc.

(** ** The cleaner ([02_data_cleaning.py]) *)

(** The raw directory holds timestamped snapshots; the processed directory
    holds one fixed-name file per dataset.  The two are different
    directories ([data/raw] and [data/processed] in [config.py]). *)
Inductive raw_content :=
| PriceCsv (rows : list RawPrice.row)
| DatacenterCsv (rows : list RawDc.row)
| OtherCsv.

Record raw_file := mkRawFile
  { path : string;
    ctime : Z;
    content : raw_content }.

Record processed_dir := mkProcessed
  { eia_prices_clean_csv : option (list CleanPrice.row);
    datacenters_clean_csv : option (list CleanDc.row) }.

Record filesystem := mkFs
  { raw_dir : list raw_file;
    processed : processed_dir }.

(** [glob] with a pattern [prefix*suffix]. *)
Definition ends_with (suffix s : string) : bool :=
  let n := String.length s in
  let k := String.length suffix in
  (k <=? n)%nat && String.eqb (substring (n - k) k s) suffix.

Definition glob_match (pfx sfx name : string) : bool :=
  prefix pfx name && ends_with sfx name
  && (String.length pfx + String.length sfx <=? String.length name)%nat.

(** [max(files, key=os.path.getctime)]: the first file of greatest ctime. *)
Fixpoint max_by_ctime (best : raw_file) (files : list raw_file) : raw_file :=
  match files with
  | [] => best
  | f :: rest => max_by_ctime (if ctime best <? ctime f then f else best) rest
  end.

Definition get_latest_file (pfx sfx : string) : Run filesystem raw_file :=
  fs <- get ;;
  match filter (fun f => glob_match pfx sfx (path f)) (raw_dir fs) with
  | [] => raise (FileNotFoundError ("No files found matching: " ++ pfx ++ "*" ++ sfx))
  | f :: rest => ret (max_by_ctime f rest)
  end.

(** [df.rename(...)] followed by [pd.to_datetime(df['date'], format='%Y-%m')],
    which raises on the first cell that does not parse. *)
Fixpoint rename_and_parse (rows : list RawPrice.row) : exn + list Price.row :=
  match rows with
  | [] => inr []
  | r :: rest =>
      match RawPrice.period r with
      | BadPeriod t => inl (ValueError t)
      | Period y m =>
          match rename_and_parse rest with
          | inl e => inl e
          | inr out =>
              inr (Price.mk (mkDate y m 1) (RawPrice.stateid r)
                     (RawPrice.sectorName r) (RawPrice.price r)
                     (RawPrice.sales r) :: out)
          end
      end
  end.

Definition dropna_price (df : list Price.row) : list Price.row :=
  filter (fun r => notna (Price.price_cents_per_kwh r) && notna (Price.sales_mwh r)) df.

Definition price_in_range (r : Price.row) : bool :=
  fle (of_int 1) (Price.price_cents_per_kwh r)
  && fle (Price.price_cents_per_kwh r) (of_int 100).

Definition add_price_per_kwh (r : Price.row) : CleanPrice.row :=
  CleanPrice.mk (Price.date r) (Price.state r) (Price.sectorName r)
    (Price.price_cents_per_kwh r) (Price.sales_mwh r)
    (fdiv (Price.price_cents_per_kwh r) (of_int 100)).

(** The frame transformation of [clean_eia_prices], between [read_csv] and
    [to_csv]. *)
Definition clean_price_frame (rows : list RawPrice.row)
  : exn + (Z * list CleanPrice.row) :=
  match rename_and_parse rows with
  | inl e => inl e
  | inr df =>
      let initial_count := len df in
      let df1 := dropna_price df in
      let df2 := filter price_in_range df1 in
      let df3 := filter (fun r => isin (Price.state r) US_STATES) df2 in
      inr (initial_count - len df1, map add_price_per_kwh df3)
  end.

Definition write_prices_clean (df : list CleanPrice.row) : Run filesystem unit :=
  modify (fun fs =>
    mkFs (raw_dir fs)
      (mkProcessed (Some df) (datacenters_clean_csv (processed fs)))).

Definition write_datacenters_clean (df : list CleanDc.row) : Run filesystem unit :=
  modify (fun fs =>
    mkFs (raw_dir fs)
      (mkProcessed (eia_prices_clean_csv (processed fs)) (Some df))).

Definition clean_eia_prices : Run filesystem (list CleanPrice.row) :=
  print (Info "Cleaning EIA price data..." []) ;;
  file <- get_latest_file "eia_electricity_prices_" ".csv" ;;
  match content file with
  | PriceCsv rows =>
      print (Info "Loaded records" [len rows]) ;;
      r <- lift_result (clean_price_frame rows) ;;
      print (Info "Removed records with missing values" [fst r]) ;;
      write_prices_clean (snd r) ;;
      print (Info "Saved clean records" [len (snd r)]) ;;
      ret (snd r)
  | DatacenterCsv rows =>
      print (Info "Loaded records" [len rows]) ;;
      raise (KeyError "date")
  | OtherCsv =>
      print (Info "Loaded records" []) ;;
      raise (KeyError "date")
  end.

(** [str.upper()] and [str.strip()] on ASCII text. *)
Definition upper_ascii (c : ascii) : ascii :=
  let n := nat_of_ascii c in
  if ((97 <=? n) && (n <=? 122))%nat then ascii_of_nat (n - 32) else c.

Fixpoint upper (s : string) : string :=
  match s with
  | EmptyString => EmptyString
  | String c rest => String (upper_ascii c) (upper rest)
  end.

Definition is_space (c : ascii) : bool :=
  let n := nat_of_ascii c in
  ((n =? 32) || ((9 <=? n) && (n <=? 13)))%nat.

Fixpoint lstrip (s : string) : string :=
  match s with
  | EmptyString => EmptyString
  | String c rest => if is_space c then lstrip rest else s
  end.

Fixpoint rstrip (s : string) : string :=
  match s with
  | EmptyString => EmptyString
  | String c rest =>
      match rstrip rest with
      | EmptyString => if is_space c then EmptyString else String c EmptyString
      | t => String c t
      end
  end.

Definition strip (s : string) : string := rstrip (lstrip s).

Definition in_bounds (r : RawDc.row) : bool :=
  fle (Some (24 # 1)) (RawDc.latitude r) && fle (RawDc.latitude r) (Some (71 # 1))
  && fle (Some (-180 # 1)) (RawDc.longitude r)
  && fle (RawDc.longitude r) (Some (-66 # 1)).

Definition normalize_state (r : RawDc.row) : RawDc.row :=
  RawDc.mk (RawDc.name r) (RawDc.company r) (RawDc.city r)
    (option_map (fun s => strip (upper s)) (RawDc.state r))
    (RawDc.latitude r) (RawDc.longitude r) (RawDc.capacity_mw r)
    (RawDc.is_ai_focused r) (RawDc.opening_date r) (RawDc.renewable_pct r).

Definition clip_renewable (r : RawDc.row) : RawDc.row :=
  RawDc.mk (RawDc.name r) (RawDc.company r) (RawDc.city r) (RawDc.state r)
    (RawDc.latitude r) (RawDc.longitude r) (RawDc.capacity_mw r)
    (RawDc.is_ai_focused r) (RawDc.opening_date r)
    (clip 0 100 (RawDc.renewable_pct r)).

(** [pd.to_datetime(df['opening_date'])]: a blank cell becomes NaT, a cell
    that does not parse raises. *)
Fixpoint parse_opening_dates (rows : list RawDc.row) : exn + list CleanDc.row :=
  match rows with
  | [] => inr []
  | r :: rest =>
      match
        match RawDc.opening_date r with
        | DateCell d => inr (Some d)
        | BlankCell => inr None
        | BadCell t => inl (ValueError t)
        end
      with
      | inl e => inl e
      | inr d =>
          match parse_opening_dates rest with
          | inl e => inl e
          | inr out =>
              inr (CleanDc.mk (RawDc.name r) (RawDc.company r) (RawDc.city r)
                     (RawDc.state r) (RawDc.latitude r) (RawDc.longitude r)
                     (RawDc.capacity_mw r) (RawDc.is_ai_focused r) d
                     (RawDc.renewable_pct r) :: out)
          end
      end
  end.

(** The frame transformation of [clean_datacenter_data]. *)
Definition clean_datacenter_frame (rows : list RawDc.row)
  : exn + list CleanDc.row :=
  let df := map normalize_state rows in
  let df1 := filter in_bounds df in
  let df2 := map clip_renewable df1 in
  parse_opening_dates df2.

Definition clean_datacenter_data : Run filesystem (list CleanDc.row) :=
  print (Info "Cleaning datacenter data..." []) ;;
  file <- get_latest_file "datacenters_" ".csv" ;;
  match content file with
  | DatacenterCsv rows =>
      print (Info "Loaded records" [len rows]) ;;
      df <- lift_result (clean_datacenter_frame rows) ;;
      write_datacenters_clean df ;;
      print (Info "Saved clean records" [len df]) ;;
      ret df
  | PriceCsv rows =>
      print (Info "Loaded records" [len rows]) ;;
      raise (KeyError "state")
  | OtherCsv =>
      print (Info "Loaded records" []) ;;
      raise (KeyError "state")
  end.

(** [run_all_cleaning], up to the quality report: the report is plain text
    for the operator, computed from the two cleaned files after both are
    written, and no later stage reads it. *)
Definition run_all_cleaning
  : Run filesystem (list CleanPrice.row * list CleanDc.row) :=
  print (Info "Starting Data Cleaning Process" []) ;;
  eia_clean <- clean_eia_prices ;;
  dc_clean <- clean_datacenter_data ;;
  print (Info "Data cleaning complete!" []) ;;
  ret (eia_clean, dc_clean).

(** ** The warehouse *)

Module DimDatacenter.
Record row := mk
  { datacenter_id : Z;
    name : option string;
    company : option string;
    location_city : option string;
    location_state : option string;
    latitude : float;
    longitude : float;
    capacity_mw : float;
    is_ai_focused : option bool;
    opening_date : option date;
    renewable_energy_pct : float }.
End DimDatacenter.

Module DimDate.
Record row := mk
  { date_id : Z;
    full_date : date }.
End DimDate.

Module PriceFact.
Record row := mk
  { region : option string;
    date_id : Z;
    price_per_kwh : float;
    price_cents_per_kwh : float;
    sales_mwh : float;
    price_type : string;
    sector : option string }.
End PriceFact.

Module ConsumptionFact.
Record row := mk
  { datacenter_id : Z;
    date_id : Z;
    energy_consumed_mwh : float;
    renewable_energy_mwh : float;
    pue_ratio : float;
    source : string }.
End ConsumptionFact.

(** Modelled from the spec: the schema-initialisation script is not among
    the sources.  The four tables exist before the loader runs, the date
    dimension is filled by that script, and [datacenter_id] is the identity
    key of the Datacenter table: the store assigns it on insert, here from
    the counter [next_datacenter_id].  No foreign key is enforced. *)
Record Database := mkDb
  { dim_datacenters : list DimDatacenter.row;
    dim_date : list DimDate.row;
    fact_electricity_prices : list PriceFact.row;
    fact_energy_consumption : list ConsumptionFact.row;
    next_datacenter_id : Z }.

(** The state of one loader process.  [store] is the committed content of
    the warehouse.  Every [to_sql] and [read_sql] goes through
    [self.engine], which opens its own connection and commits the append
    before it returns.  [self.conn] is a second connection: the cursor
    made from it only ever runs SELECT statements, so its transaction never
    holds a write; [commit] and [rollback] end that transaction.
    [rng_calls] counts the calls made to [np.random.random]. *)
Record Session := mkSession
  { store : Database;
    in_transaction : bool;
    cursor_closed : bool;
    conn_closed : bool;
    rng_calls : nat }.

Definition connect (db : Database) : Session := mkSession db false false false 0.

Definition set_store (f : Database -> Database) : Run Session unit :=
  modify (fun s =>
    mkSession (f (store s)) (in_transaction s) (cursor_closed s) (conn_closed s)
      (rng_calls s)).

(** [self.cursor.execute(query)] for a SELECT: psycopg2 opens a transaction
    on the first statement; the rows are read from the committed store. *)
Definition cursor_execute {A} (query : Database -> A) : Run Session A :=
  modify (fun s =>
    mkSession (store s) true (cursor_closed s) (conn_closed s) (rng_calls s)) ;;
  s <- get ;;
  ret (query (store s)).

Definition conn_commit : Run Session unit :=
  modify (fun s =>
    mkSession (store s) false (cursor_closed s) (conn_closed s) (rng_calls s)).

Definition conn_rollback : Run Session unit :=
  modify (fun s =>
    mkSession (store s) false (cursor_closed s) (conn_closed s) (rng_calls s)).

Definition cursor_close : Run Session unit :=
  modify (fun s =>
    mkSession (store s) (in_transaction s) true (conn_closed s) (rng_calls s)).

Definition conn_close : Run Session unit :=
  modify (fun s =>
    mkSession (store s) false (cursor_closed s) true (rng_calls s)).

(** [pd.read_sql(query, self.engine)]. *)
Definition read_sql {A} (query : Database -> A) : Run Session A :=
  s <- get ;;
  ret (query (store s)).

(** [np.random.random()]: the next draw of the generator [rnd]. *)
Definition random (rnd : nat -> Q) : Run Session Q :=
  s <- get ;;
  modify (fun s =>
    mkSession (store s) (in_transaction s) (cursor_closed s) (conn_closed s)
      (S (rng_calls s))) ;;
  ret (rnd (rng_calls s)).

Definition try_except {St A} (body : Run St A) (handler : exn -> Run St A)
  : Run St A :=
  fun s =>
    match body s with
    | (s1, out1, inl e) =>
        match handler e s1 with
        | (s2, out2, r) => (s2, out1 ++ out2, r)
        end
    | r => r
    end.

Definition try_finally {St A} (body : Run St A) (cleanup : Run St unit)
  : Run St A :=
  fun s =>
    match body s with
    | (s1, out1, r) =>
        match cleanup s1 with
        | (s2, out2, inl e) => (s2, out1 ++ out2, inl e)
        | (s2, out2, inr _) => (s2, out1 ++ out2, r)
        end
    end.

(** A [for] loop that collects what each iteration produces. *)
Fixpoint for_each {St A B} (l : list A) (body : A -> Run St B)
  : Run St (list B) :=
  match l with
  | [] => ret []
  | x :: rest =>
      y <- body x ;;
      ys <- for_each rest body ;;
      ret (y :: ys)
  end.

(** ** The loader ([03_data_transformation.py]) *)

(** [to_sql('dim_datacenters', if_exists='append')]: the rows go after the
    rows already there, each with the next identity key. *)
Fixpoint number_from (next : Z) (df : list (Z -> DimDatacenter.row))
  : list DimDatacenter.row :=
  match df with
  | [] => []
  | r :: rest => r next :: number_from (next + 1) rest
  end.

Definition append_datacenters (df : list (Z -> DimDatacenter.row))
  (db : Database) : Database :=
  mkDb (dim_datacenters db ++ number_from (next_datacenter_id db) df)
    (dim_date db) (fact_electricity_prices db) (fact_energy_consumption db)
    (next_datacenter_id db + len df).

Definition append_prices (df : list PriceFact.row) (db : Database) : Database :=
  mkDb (dim_datacenters db) (dim_date db) (fact_electricity_prices db ++ df)
    (fact_energy_consumption db) (next_datacenter_id db).

Definition append_consumption (df : list ConsumptionFact.row) (db : Database)
  : Database :=
  mkDb (dim_datacenters db) (dim_date db) (fact_electricity_prices db)
    (fact_energy_consumption db ++ df) (next_datacenter_id db).

(** [astype(bool)]: a missing cell (NaN) is truthy. *)
Definition astype_bool (b : option bool) : option bool :=
  match b with
  | Some x => Some x
  | None => Some true
  end.

(** The rename, the coercions and the column selection of
    [load_datacenters]; the key is left to the store. *)
Definition to_dim_datacenter (r : CleanDc.row) (id : Z) : DimDatacenter.row :=
  DimDatacenter.mk id (CleanDc.name r) (CleanDc.company r) (CleanDc.city r)
    (CleanDc.state r) (CleanDc.latitude r) (CleanDc.longitude r)
    (CleanDc.capacity_mw r) (astype_bool (CleanDc.is_ai_focused r))
    (CleanDc.opening_date r) (CleanDc.renewable_pct r).

Definition read_csv {St A} (name : string) (file : option (list A))
  : Run St (list A) :=
  match file with
  | Some df => ret df
  | None => raise (FileNotFoundError name)
  end.

Definition load_datacenters (files : processed_dir) : Run Session Z :=
  print (Info "Loading datacenters..." []) ;;
  df <- read_csv "datacenters_clean.csv" (datacenters_clean_csv files) ;;
  set_store (append_datacenters (map to_dim_datacenter df)) ;;
  print (Info "Loaded datacenter records" [len df]) ;;
  ret (len df).

(** [SELECT date_id FROM dim_date WHERE full_date = %s] and [fetchone]. *)
Definition select_date_id (d : date) (db : Database) : option Z :=
  option_map DimDate.date_id
    (find (fun r => date_eqb (DimDate.full_date r) d) (dim_date db)).

Definition retail_fact (row : CleanPrice.row) (date_id : Z) : PriceFact.row :=
  PriceFact.mk (CleanPrice.state row) date_id (CleanPrice.price_per_kwh row)
    (CleanPrice.price_cents_per_kwh row) (CleanPrice.sales_mwh row)
    "retail" (Some "all").

(** The body of the [for idx, row in df.iterrows()] loop. *)
Fixpoint price_loop (total idx : Z) (df : list CleanPrice.row)
  : Run Session (list PriceFact.row) :=
  match df with
  | [] => ret []
  | row :: rest =>
      (if idx mod 500 =? 0 then print (Info "Progress" [idx; total]) else ret tt) ;;
      result <- cursor_execute (select_date_id (CleanPrice.date row)) ;;
      later <- price_loop total (idx + 1) rest ;;
      match result with
      | Some date_id => ret (retail_fact row date_id :: later)
      | None => ret later
      end
  end.

Definition load_electricity_prices (files : processed_dir) : Run Session Z :=
  print (Info "Loading electricity prices..." []) ;;
  df <- read_csv "eia_prices_clean.csv" (eia_prices_clean_csv files) ;;
  print (Info "Processing price records..." [len df]) ;;
  df_load <- price_loop (len df) 0 df ;;
  (if 0 <? len df_load then
     set_store (append_prices df_load) ;;
     print (Info "Loaded price records" [len df_load])
   else
     print (Warning "No price records to load" [])) ;;
  ret (len df_load).

(** The months of the 5-year window:
    [EXTRACT(DAY FROM full_date) = 1 AND full_date >= '2020-01-01'
     AND full_date <= '2024-12-01']. *)
Definition first_of_month_in_window (r : DimDate.row) : bool :=
  (day (DimDate.full_date r) =? 1)
  && date_leb (mkDate 2020 1 1) (DimDate.full_date r)
  && date_leb (DimDate.full_date r) (mkDate 2024 12 1).

Definition truthy (b : option bool) : bool :=
  match b with Some true => true | _ => false end.

Definition hours_in_month : Z := 730.

(** What one iteration of the inner loop computes before it rounds. *)
Record estimate := mkEstimate
  { utilization : Q;
    pue : Q;
    monthly_consumption : float;
    renewable_mwh : float }.

Definition estimate_of (dc : DimDatacenter.row) (utilization pue : Q) : estimate :=
  let monthly_consumption :=
    fmul (fmul (DimDatacenter.capacity_mw dc) (of_int hours_in_month))
      (Some utilization) in
  let renewable_pct :=
    if notna (DimDatacenter.renewable_energy_pct dc)
    then DimDatacenter.renewable_energy_pct dc
    else of_int 0 in
  let renewable_mwh := fmul monthly_consumption (fdiv renewable_pct (of_int 100)) in
  mkEstimate utilization pue monthly_consumption renewable_mwh.

Definition draw_estimate (rnd : nat -> Q) (dc : DimDatacenter.row)
  : Run Session estimate :=
  if truthy (DimDatacenter.is_ai_focused dc) then
    r1 <- random rnd ;;
    r2 <- random rnd ;;
    ret (estimate_of dc (0.85 + 0.10 * r1)%Q (1.15 + 0.15 * r2)%Q)
  else
    r1 <- random rnd ;;
    r2 <- random rnd ;;
    ret (estimate_of dc (0.70 + 0.20 * r1)%Q (1.35 + 0.25 * r2)%Q).

Definition consumption_record (dc : DimDatacenter.row) (d : DimDate.row)
  (e : estimate) : ConsumptionFact.row :=
  ConsumptionFact.mk (DimDatacenter.datacenter_id dc) (DimDate.date_id d)
    (round2 (monthly_consumption e)) (round2 (renewable_mwh e))
    (round2 (Some (pue e))) "estimated".

Definition consumption_records (rnd : nat -> Q)
  (dc_df : list DimDatacenter.row) (dates_df : list DimDate.row)
  : Run Session (list ConsumptionFact.row) :=
  per_dc <- for_each dc_df (fun dc =>
              for_each dates_df (fun d =>
                e <- draw_estimate rnd dc ;;
                ret (consumption_record dc d e))) ;;
  ret (List.concat per_dc).

Definition generate_sample_energy_consumption (rnd : nat -> Q) : Run Session Z :=
  print (Info "Generating sample energy consumption data..." []) ;;
  dc_df <- read_sql dim_datacenters ;;
  dates_df <- read_sql (fun db => filter first_of_month_in_window (dim_date db)) ;;
  print (Info "Generating datacenters x months..." [len dc_df; len dates_df]) ;;
  records <- consumption_records rnd dc_df dates_df ;;
  set_store (append_consumption records) ;;
  print (Info "Generated consumption records" [len records]) ;;
  ret (len records).

(** The left anti-join of [verify_data_integrity]: the consumption rows
    whose [datacenter_id] matches no Datacenter row. *)
Definition has_datacenter (db : Database) (id : Z) : bool :=
  existsb (fun dc => DimDatacenter.datacenter_id dc =? id) (dim_datacenters db).

Definition orphans (db : Database) : Z :=
  len (filter (fun ec => negb (has_datacenter db (ConsumptionFact.datacenter_id ec)))
         (fact_energy_consumption db)).

Definition verify_data_integrity : Run Session bool :=
  print (Info "Verifying data integrity..." []) ;;
  c1 <- cursor_execute (fun db => len (dim_datacenters db)) ;;
  print (Info "dim_datacenters records" [c1]) ;;
  c2 <- cursor_execute (fun db => len (dim_date db)) ;;
  print (Info "dim_date records" [c2]) ;;
  c3 <- cursor_execute (fun db => len (fact_electricity_prices db)) ;;
  print (Info "fact_electricity_prices records" [c3]) ;;
  c4 <- cursor_execute (fun db => len (fact_energy_consumption db)) ;;
  print (Info "fact_energy_consumption records" [c4]) ;;
  print (Info "Checking referential integrity..." []) ;;
  n <- cursor_execute orphans ;;
  (if n =? 0 then print (Info "No orphaned energy consumption records" [])
   else print (Warning "Found orphaned energy consumption records" [n])) ;;
  ret true.

(** The [try] block of [run_full_load]. *)
Definition load_all (files : processed_dir) (rnd : nat -> Q) : Run Session bool :=
  dc_count <- load_datacenters files ;;
  price_count <- load_electricity_prices files ;;
  consumption_count <- generate_sample_energy_consumption rnd ;;
  verify_data_integrity ;;
  conn_commit ;;
  print (Info "Database Loading Complete!" []) ;;
  print (Info "Summary" [dc_count; price_count; consumption_count]) ;;
  ret true.

(** The [except Exception as e] block of [run_full_load]. *)
Definition load_failed (e : exn) : Run Session bool :=
  print (Error ("Error during loading: " ++ exn_text e)) ;;
  print (Error "Traceback (most recent call last)") ;;
  conn_rollback ;;
  ret false.

Definition run_full_load (files : processed_dir) (rnd : nat -> Q)
  : Run Session bool :=
  print (Info "Starting Database Loading Process" []) ;;
  try_finally
    (try_except (load_all files rnd) load_failed)
    (cursor_close ;; conn_close).

(** The script: the import guard at the top, then the [__main__] block.
    [sys.exit(1)] is called when [config.py] cannot be imported; the
    [__main__] block itself ends without calling [sys.exit]. *)
Record process := mkProcess
  { final : Session;
    stdout : list message;
    exit_status : Z }.

Definition main (config_importable : bool) (files : processed_dir)
  (rnd : nat -> Q) (db : Database) : process :=
  if negb config_importable then
    mkProcess (connect db) [Error "ERROR: Could not import config.py"] 1
  else
    match run_full_load files rnd (connect db) with
    | (s, out, inr true) =>
        mkProcess s (out ++ [Info "Ready for Power BI connection!" []]) 0
    | (s, out, inr false) =>
        mkProcess s (out ++ [Error "Loading failed. Check errors above."]) 0
    | (s, out, inl e) =>
        mkProcess s (out ++ [Error (exn_text e)]) 1
    end.

(** ** The bulk loader ([load_data.py]) *)

(** [df.merge(date_df, left_on='date', right_on='full_date', how='left')]:
    the left rows in their order, each once per matching right row, or once
    with a missing [date_id] when no right row matches. *)
Definition merge_left (df : list CleanPrice.row) (date_df : list DimDate.row)
  : list (CleanPrice.row * option Z) :=
  flat_map (fun row =>
    match filter (fun d => date_eqb (CleanPrice.date row) (DimDate.full_date d))
            date_df with
    | [] => [(row, None)]
    | ms => map (fun d => (row, Some (DimDate.date_id d))) ms
    end) df.

(** One row of [price_df]; [astype(int)] raises on a missing value. *)
Definition average_fact (r : CleanPrice.row * option Z) : exn + PriceFact.row :=
  match snd r with
  | None => inl (ValueError "Cannot convert non-finite values (NA or inf) to integer")
  | Some date_id =>
      inr (PriceFact.mk (CleanPrice.state (fst r)) date_id
             (CleanPrice.price_per_kwh (fst r))
             (CleanPrice.price_cents_per_kwh (fst r))
             (CleanPrice.sales_mwh (fst r)) "average"
             (CleanPrice.sectorName (fst r)))
  end.

Fixpoint price_frame (df : list (CleanPrice.row * option Z))
  : exn + list PriceFact.row :=
  match df with
  | [] => inr []
  | r :: rest =>
      match average_fact r with
      | inl e => inl e
      | inr f =>
          match price_frame rest with
          | inl e => inl e
          | inr fs => inr (f :: fs)
          end
      end
  end.

Definition load_eia_prices (file : option (list CleanPrice.row)) : Run Database Z :=
  print (Info "Loading electricity prices from file..." []) ;;
  df <- read_csv "eia_prices_clean.csv" file ;;
  date_df <- (db <- get ;; ret (dim_date db)) ;;
  let df := merge_left df date_df in
  let missing := filter (fun r => negb (notna (snd r))) df in
  df <- (if 0 <? len missing then
           print (Warning "records have dates not in dim_date" [len missing]) ;;
           print (Info "Date range in data" []) ;;
           ret (filter (fun r => notna (snd r)) df)
         else ret df) ;;
  price_df <- lift_result (price_frame df) ;;
  modify (append_prices price_df) ;;
  print (Info "Loaded price records" [len price_df]) ;;
  ret (len price_df).

(** * Properties of the cleaner *)

Lemma fle_spec (a b : float) :
  fle a b = true <-> exists x y, a = Some x /\ b = Some y /\ (x <= y)%Q.
Proof.
  destruct a as [x|], b as [y|]; simpl; split.
  - intros H. exists x, y. rewrite Qle_bool_iff in H. auto.
  - intros (x' & y' & Hx & Hy & H). inversion Hx; inversion Hy; subst.
    now apply Qle_bool_iff.
  - discriminate.
  - intros (? & ? & _ & Hy & _). discriminate.
  - discriminate.
  - intros (? & ? & Hx & _). discriminate.
  - discriminate.
  - intros (? & ? & Hx & _). discriminate.
Qed.

Lemma rename_and_parse_In rows df :
  rename_and_parse rows = inr df ->
  forall r, In r df ->
    exists x y m,
      In x rows /\ RawPrice.period x = Period y m
      /\ r = Price.mk (mkDate y m 1) (RawPrice.stateid x) (RawPrice.sectorName x)
               (RawPrice.price x) (RawPrice.sales x).
Proof.
  revert df. induction rows as [|x rows IH]; simpl; intros df H r Hr.
  - inversion H; subst. destruct Hr.
  - destruct (RawPrice.period x) as [y m|t] eqn:Hp; [|discriminate].
    destruct (rename_and_parse rows) as [e|out]; [discriminate|].
    inversion H; subst. destruct Hr as [<-|Hr].
    + exists x, y, m. auto.
    + destruct (IH out eq_refl r Hr) as (x' & y' & m' & Hin & Hp' & ->).
      exists x', y', m'. auto.
Qed.

(** The rows the price filters keep. *)
Definition price_kept (r : Price.row) : bool :=
  notna (Price.price_cents_per_kwh r) && notna (Price.sales_mwh r)
  && price_in_range r && isin (Price.state r) US_STATES.

Lemma filter_filter {A} (p q : A -> bool) (l : list A) :
  filter q (filter p l) = filter (fun x => p x && q x) l.
Proof.
  induction l as [|x l IH]; simpl; [reflexivity|].
  destruct (p x); simpl; [|exact IH].
  destruct (q x); simpl; now rewrite IH.
Qed.

Lemma clean_price_frame_rows rows n out :
  clean_price_frame rows = inr (n, out) ->
  exists df, rename_and_parse rows = inr df
             /\ out = map add_price_per_kwh (filter price_kept df).
Proof.
  unfold clean_price_frame. destruct (rename_and_parse rows) as [e|df]; [discriminate|].
  intros H. inversion H; subst. exists df. split; [reflexivity|].
  f_equal. unfold dropna_price. rewrite !filter_filter.
  apply filter_ext. intros r. unfold price_kept. now rewrite andb_assoc.
Qed.

Lemma rename_and_parse_app l1 l2 :
  rename_and_parse (l1 ++ l2) =
  match rename_and_parse l1 with
  | inl e => inl e
  | inr d1 =>
      match rename_and_parse l2 with
      | inl e => inl e
      | inr d2 => inr (d1 ++ d2)
      end
  end.
Proof.
  induction l1 as [|x l1 IH]; simpl.
  - destruct (rename_and_parse l2); reflexivity.
  - destruct (RawPrice.period x); [|reflexivity].
    rewrite IH. destruct (rename_and_parse l1); [reflexivity|].
    destruct (rename_and_parse l2); reflexivity.
Qed.

Lemma max_by_ctime_In files (f : raw_file) (l : list raw_file) :
  (forall g, In g (f :: l) -> In g files) -> In (max_by_ctime f l) files.
Proof.
  revert f. induction l as [|g l IH]; simpl; intros f Hsub.
  - apply Hsub. now left.
  - apply IH. intros h [<-|Hh].
    + destruct (ctime f <? ctime g); apply Hsub; simpl; auto.
    + apply Hsub. simpl. auto.
Qed.

Lemma latest_In (keep : raw_file -> bool) files f l :
  filter keep files = f :: l -> In (max_by_ctime f l) files.
Proof.
  intros Hf. apply max_by_ctime_In. intros g Hg. rewrite <- Hf in Hg.
  apply filter_In in Hg. tauto.
Qed.

(** What [clean_eia_prices] leaves behind when it returns. *)
Lemma clean_eia_prices_inv fs out :
  result_of (clean_eia_prices fs) = inr out ->
  exists file rows n,
    In file (raw_dir fs) /\ content file = PriceCsv rows
    /\ clean_price_frame rows = inr (n, out)
    /\ state_of (clean_eia_prices fs)
       = mkFs (raw_dir fs) (mkProcessed (Some out) (datacenters_clean_csv (processed fs))).
Proof.
  unfold clean_eia_prices, get_latest_file, bind, print, get, result_of, state_of.
  simpl.
  destruct (filter _ (raw_dir fs)) as [|f rest] eqn:Hf; simpl; [discriminate|].
  pose proof (latest_In _ _ _ _ Hf) as Hin.
  destruct (content (max_by_ctime f rest)) as [rows| |] eqn:Hc; simpl;
    try discriminate.
  unfold lift_result. destruct (clean_price_frame rows) as [e|[n df]] eqn:Hframe;
    simpl; [discriminate|].
  intros H. inversion H; subst.
  exists (max_by_ctime f rest), rows, n. auto.
Qed.

(** C4.  Every row of the price table that [clean_eia_prices] returns and
    writes to [eia_prices_clean.csv] comes from a row of the snapshot with
    the same price and sales volume, has a price in cents within [1, 100]
    and a sales volume that is present, and its [price_per_kwh] is that
    price divided by 100.  Hence no snapshot row with a missing price, a
    missing sales volume or a price outside [1, 100] reaches the cleaned
    table. *)
Theorem clean_eia_prices_range fs out :
  result_of (clean_eia_prices fs) = inr out ->
  eia_prices_clean_csv (processed (state_of (clean_eia_prices fs))) = Some out
  /\ forall r, In r out ->
       (exists p s,
          CleanPrice.price_cents_per_kwh r = Some p /\ (1 <= p <= 100)%Q
          /\ CleanPrice.price_per_kwh r = Some (p / 100)%Q
          /\ CleanPrice.sales_mwh r = Some s)
       /\ (exists file rows x,
             In file (raw_dir fs) /\ content file = PriceCsv rows /\ In x rows
             /\ RawPrice.price x = CleanPrice.price_cents_per_kwh r
             /\ RawPrice.sales x = CleanPrice.sales_mwh r
             /\ RawPrice.stateid x = CleanPrice.state r).
Proof.
  intros H. destruct (clean_eia_prices_inv fs out H) as (file & rows & n & Hin & Hc & Hf & Hs).
  rewrite Hs. simpl. split; [reflexivity|].
  destruct (clean_price_frame_rows _ _ _ Hf) as (df & Hdf & ->).
  intros r Hr. apply in_map_iff in Hr. destruct Hr as (r0 & <- & Hr0).
  apply filter_In in Hr0. destruct Hr0 as [Hr0 Hk].
  unfold price_kept in Hk. repeat (apply andb_true_iff in Hk; destruct Hk as [Hk ?]).
  split.
  - unfold price_in_range in *.
    match goal with Hrange : _ && _ = true |- _ =>
      apply andb_true_iff in Hrange; destruct Hrange as [Hlo Hhi] end.
    apply fle_spec in Hlo. destruct Hlo as (a & p & Ha & Hp & Hlo).
    apply fle_spec in Hhi. destruct Hhi as (p' & b & Hp' & Hb & Hhi).
    rewrite Hp in Hp'. inversion Hp'; subst p'.
    inversion Ha; subst a. inversion Hb; subst b.
    destruct (Price.sales_mwh r0) as [s|] eqn:Hsales; [|discriminate].
    exists p, s. simpl. rewrite Hp, Hsales. simpl. auto.
  - destruct (rename_and_parse_In _ _ Hdf r0 Hr0) as (x & y & m & Hx & _ & ->).
    exists file, rows, x. simpl. repeat split; assumption || reflexivity.
Qed.

(** What [clean_datacenter_data] leaves behind when it returns. *)
Lemma clean_datacenter_data_inv fs out :
  result_of (clean_datacenter_data fs) = inr out ->
  exists file rows,
    In file (raw_dir fs) /\ content file = DatacenterCsv rows
    /\ clean_datacenter_frame rows = inr out
    /\ state_of (clean_datacenter_data fs)
       = mkFs (raw_dir fs) (mkProcessed (eia_prices_clean_csv (processed fs)) (Some out)).
Proof.
  unfold clean_datacenter_data, get_latest_file, bind, print, get, result_of, state_of.
  simpl.
  destruct (filter _ (raw_dir fs)) as [|f rest] eqn:Hf; simpl; [discriminate|].
  pose proof (latest_In _ _ _ _ Hf) as Hin.
  destruct (content (max_by_ctime f rest)) as [|rows|] eqn:Hc; simpl;
    try discriminate.
  unfold lift_result. destruct (clean_datacenter_frame rows) as [e|df] eqn:Hframe;
    simpl; [discriminate|].
  intros H. inversion H; subst.
  exists (max_by_ctime f rest), rows. auto.
Qed.

(** A cleaned facility row keeps every cell of the frame row it is made
    from, the opening date apart. *)
Definition same_cells (x : RawDc.row) (r : CleanDc.row) : Prop :=
  CleanDc.name r = RawDc.name x
  /\ CleanDc.state r = RawDc.state x
  /\ CleanDc.latitude r = RawDc.latitude x
  /\ CleanDc.longitude r = RawDc.longitude x
  /\ CleanDc.capacity_mw r = RawDc.capacity_mw x
  /\ CleanDc.is_ai_focused r = RawDc.is_ai_focused x
  /\ CleanDc.renewable_pct r = RawDc.renewable_pct x.

Lemma parse_opening_dates_cells df out :
  parse_opening_dates df = inr out -> Forall2 same_cells df out.
Proof.
  revert out. induction df as [|x df IH]; simpl; intros out H.
  - inversion H. constructor.
  - destruct (RawDc.opening_date x); try discriminate;
      destruct (parse_opening_dates df) as [e|out']; try discriminate;
      inversion H; subst; constructor; auto; repeat split.
Qed.

Lemma Forall2_In_r {A B} (R : A -> B -> Prop) l1 l2 :
  Forall2 R l1 l2 -> forall b, In b l2 -> exists a, In a l1 /\ R a b.
Proof.
  induction 1 as [|a b' l1 l2 HR _ IH]; intros b Hb; [destruct Hb|].
  destruct Hb as [<-|Hb].
  - exists a. simpl. auto.
  - destruct (IH b Hb) as (a' & Ha & HR'). exists a'. simpl. auto.
Qed.

Lemma Forall2_In_l {A B} (R : A -> B -> Prop) l1 l2 :
  Forall2 R l1 l2 -> forall a, In a l1 -> exists b, In b l2 /\ R a b.
Proof.
  induction 1 as [|a' b l1 l2 HR _ IH]; intros a Ha; [destruct Ha|].
  destruct Ha as [<-|Ha].
  - exists b. simpl. auto.
  - destruct (IH a Ha) as (b' & Hb & HR'). exists b'. simpl. auto.
Qed.

Lemma Forall2_map_eq {A B C} (R : A -> B -> Prop) (f : A -> C) (g : B -> C) l1 l2 :
  Forall2 R l1 l2 -> (forall a b, R a b -> g b = f a) -> map g l2 = map f l1.
Proof.
  induction 1 as [|a b l1 l2 HR _ IH]; intros Hfg; simpl; [reflexivity|].
  rewrite (Hfg a b HR), IH; auto.
Qed.

Lemma in_bounds_spec x :
  in_bounds x = true <->
  exists la lo,
    RawDc.latitude x = Some la /\ RawDc.longitude x = Some lo
    /\ (24 <= la <= 71)%Q /\ (-180 <= lo <= -66)%Q.
Proof.
  unfold in_bounds. rewrite !andb_true_iff, !fle_spec. split.
  - intros [[[(a & la & Ha & Hla & H1) (la' & b & Hla' & Hb & H2)]
               (c & lo & Hc & Hlo & H3)] (lo' & d & Hlo' & Hd & H4)].
    rewrite Hla in Hla'. rewrite Hlo in Hlo'.
    inversion Ha; inversion Hb; inversion Hc; inversion Hd;
      inversion Hla'; inversion Hlo'; subst.
    exists la', lo'. auto.
  - intros (la & lo & Hla & Hlo & [H1 H2] & [H3 H4]).
    repeat split; eauto 10.
Qed.

Lemma in_bounds_normalize x : in_bounds (normalize_state x) = in_bounds x.
Proof. reflexivity. Qed.

(** Erasing a row outside the bounding box from the snapshot changes
    nothing in what the cleaner makes of it. *)
Lemma clean_datacenter_frame_erase l1 x l2 :
  in_bounds x = false ->
  clean_datacenter_frame (l1 ++ x :: l2) = clean_datacenter_frame (l1 ++ l2).
Proof.
  intros Hx. unfold clean_datacenter_frame.
  rewrite !map_app, !filter_app. simpl.
  now rewrite in_bounds_normalize, Hx.
Qed.

(** C5.  Every row of the facility table that [clean_datacenter_data]
    returns and writes to [datacenters_clean.csv] has a latitude in
    [24, 71] and a longitude in [-180, -66].  A snapshot row outside that
    box (a row of latitude 10, say) leaves no trace: the cleaned table is
    the one obtained from the snapshot without that row, and a snapshot
    made of that row alone is cleaned to the empty table. *)
Theorem clean_datacenter_data_bounds fs out :
  result_of (clean_datacenter_data fs) = inr out ->
  datacenters_clean_csv (processed (state_of (clean_datacenter_data fs))) = Some out
  /\ (forall r, In r out ->
        exists la lo,
          CleanDc.latitude r = Some la /\ CleanDc.longitude r = Some lo
          /\ (24 <= la <= 71)%Q /\ (-180 <= lo <= -66)%Q)
  /\ exists file rows,
       In file (raw_dir fs) /\ content file = DatacenterCsv rows
       /\ (forall l1 x l2,
             rows = l1 ++ x :: l2 ->
             in_bounds x = false \/ RawDc.latitude x = Some 10%Q ->
             clean_datacenter_frame (l1 ++ l2) = inr out)
       /\ (forall x,
             rows = [x] ->
             in_bounds x = false \/ RawDc.latitude x = Some 10%Q ->
             out = []).
Proof.
  intros H.
  destruct (clean_datacenter_data_inv fs out H) as (file & rows & Hin & Hc & Hf & Hs).
  rewrite Hs. simpl. split; [reflexivity|]. split.
  - intros r Hr. unfold clean_datacenter_frame in Hf.
    apply parse_opening_dates_cells in Hf.
    destruct (Forall2_In_r _ _ _ Hf r Hr) as (x & Hx & Hcells).
    apply in_map_iff in Hx. destruct Hx as (x0 & <- & Hx0).
    apply filter_In in Hx0. destruct Hx0 as [_ Hb].
    apply in_bounds_spec in Hb. destruct Hb as (la & lo & Hla & Hlo & Hb).
    destruct Hcells as (_ & _ & Hla' & Hlo' & _).
    exists la, lo. simpl in Hla', Hlo'. rewrite Hla', Hlo'. auto.
  - assert (Hout : forall x, in_bounds x = false \/ RawDc.latitude x = Some 10%Q ->
                             in_bounds x = false).
    { intros x [Hx|Hx]; [exact Hx|]. unfold in_bounds. now rewrite Hx. }
    exists file, rows. repeat split; auto.
    + intros l1 x l2 -> Hx. rewrite <- Hf. symmetry.
      apply clean_datacenter_frame_erase. auto.
    + intros x -> Hx. unfold clean_datacenter_frame in Hf. simpl in Hf.
      rewrite in_bounds_normalize, (Hout x Hx) in Hf. simpl in Hf. now inversion Hf.
Qed.

(** * Properties of the loader *)

(** ** Running a sequence *)

Lemma bind_inr {St A B} (c : Run St A) (k : A -> Run St B) s s1 out1 a :
  c s = (s1, out1, inr a) ->
  bind c k s = (fst (fst (k a s1)), out1 ++ snd (fst (k a s1)), snd (k a s1)).
Proof. intros H. unfold bind. rewrite H. now destruct (k a s1) as [[? ?] ?]. Qed.

Lemma bind_inl {St A B} (c : Run St A) (k : A -> Run St B) s s1 out1 e :
  c s = (s1, out1, inl e) -> bind c k s = (s1, out1, inl e).
Proof. intros H. unfold bind. now rewrite H. Qed.

(** ** Loops *)

Section ForEach.
Context {St A B : Type}.
Variable R : St -> St -> Prop.
Variable P : A -> B -> Prop.
Variable body : A -> Run St B.
Hypothesis R_refl : forall s, R s s.
Hypothesis R_trans : forall a b c, R a b -> R b c -> R a c.

(** A loop whose body always returns, relates the states by [R] and its
    argument to its value by [P], returns one value per element. *)
Lemma for_each_total (l : list A) :
  (forall x s, In x l ->
     exists s' out y, body x s = (s', out, inr y) /\ R s s' /\ P x y) ->
  forall s,
    exists s' out ys,
      for_each l body s = (s', out, inr ys) /\ R s s' /\ Forall2 P l ys.
Proof.
  induction l as [|x l IH]; intros Hbody s; simpl.
  - exists s, [], []. unfold ret. auto.
  - destruct (Hbody x s (or_introl eq_refl)) as (s1 & out1 & y & Hx & HR1 & HP).
    destruct (IH (fun x' s' H => Hbody x' s' (or_intror H)) s1)
      as (s2 & out2 & ys & Hl & HR2 & HF).
    exists s2, (out1 ++ (out2 ++ [])), (y :: ys).
    unfold bind, ret. rewrite Hx, Hl. simpl. eauto.
Qed.
End ForEach.

(** ** Loading the dimension *)

Lemma load_datacenters_ok files df s :
  datacenters_clean_csv files = Some df ->
  load_datacenters files s =
  (mkSession (append_datacenters (map to_dim_datacenter df) (store s))
     (in_transaction s) (cursor_closed s) (conn_closed s) (rng_calls s),
   [Info "Loading datacenters..." []; Info "Loaded datacenter records" [len df]],
   inr (len df)).
Proof.
  intros H. unfold load_datacenters, read_csv, bind, print, set_store, modify, ret.
  rewrite H. reflexivity.
Qed.

Lemma load_datacenters_missing files s :
  datacenters_clean_csv files = None ->
  load_datacenters files s =
  (s, [Info "Loading datacenters..." []],
   inl (FileNotFoundError "datacenters_clean.csv")).
Proof.
  intros H. unfold load_datacenters, read_csv, bind, print, raise.
  rewrite H. reflexivity.
Qed.

Lemma number_from_map {C} (f : DimDatacenter.row -> C) (g : CleanDc.row -> C) df :
  (forall r id, f (to_dim_datacenter r id) = g r) ->
  forall next, map f (number_from next (map to_dim_datacenter df)) = map g df.
Proof.
  intros Hfg. induction df as [|r df IH]; intros next; simpl; [reflexivity|].
  now rewrite Hfg, IH.
Qed.

Lemma clip_range lower upper v p :
  (lower <= upper)%Q -> clip lower upper v = Some p -> (lower <= p <= upper)%Q.
Proof.
  intros Hlu. destruct v as [x|]; simpl; [|discriminate].
  destruct (Qle_bool lower x) eqn:Hlo; simpl.
  - destruct (Qle_bool x upper) eqn:Hhi; simpl; intros H; inversion H; subst.
    + apply Qle_bool_iff in Hlo, Hhi. auto.
    + split; [exact Hlu | apply Qle_refl].
  - intros H; inversion H; subst. split; [apply Qle_refl | exact Hlu].
Qed.

Lemma clip_above lower upper p :
  (lower <= upper)%Q -> (upper < p)%Q -> clip lower upper (Some p) = Some upper.
Proof.
  intros Hlu Hp. simpl.
  assert (Hlo : Qle_bool lower p = true).
  { apply Qle_bool_iff. apply Qlt_le_weak. eapply Qle_lt_trans; eauto. }
  assert (Hhi : Qle_bool p upper = false).
  { destruct (Qle_bool p upper) eqn:E; [|reflexivity].
    apply Qle_bool_iff in E. exfalso. eapply Qlt_not_le; eauto. }
  now rewrite Hlo, Hhi.
Qed.

Lemma clip_inside lower upper p :
  (lower <= p <= upper)%Q -> clip lower upper (Some p) = Some p.
Proof.
  intros [Hlo Hhi]. simpl.
  apply Qle_bool_iff in Hlo, Hhi. now rewrite Hlo, Hhi.
Qed.

Lemma clip_below lower upper p :
  (p < lower)%Q -> clip lower upper (Some p) = Some lower.
Proof.
  intros Hp. simpl.
  assert (Hlo : Qle_bool lower p = false).
  { destruct (Qle_bool lower p) eqn:E; [|reflexivity].
    apply Qle_bool_iff in E. exfalso. eapply Qlt_not_le; eauto. }
  now rewrite Hlo.
Qed.

(** Clamping a percentage to [0, 100], said in the words of the
    specification and without [clip]: a missing value stays missing, a
    value below 0 becomes 0, a value from 0 to 100 is kept as it is, and a
    value above 100 becomes 100. *)
Definition clamped_pct (v w : float) : Prop :=
  match v with
  | None => w = None
  | Some p =>
      ((p < 0)%Q -> w = Some 0%Q)
      /\ ((0 <= p <= 100)%Q -> w = Some p)
      /\ ((100 < p)%Q -> w = Some 100%Q)
  end.

Lemma clip_clamped_pct v : clamped_pct v (clip 0 100 v).
Proof.
  destruct v as [p|]; [|reflexivity].
  split; [|split]; intros Hp.
  - now apply clip_below.
  - now apply clip_inside.
  - apply clip_above; [discriminate | exact Hp].
Qed.

(** The renewable column of the cleaned table, row by row. *)
Lemma clean_datacenter_frame_renewable rows out :
  clean_datacenter_frame rows = inr out ->
  Forall2 (fun x r =>
             CleanDc.name r = RawDc.name x
             /\ CleanDc.renewable_pct r = clip 0 100 (RawDc.renewable_pct x))
    (filter in_bounds rows) out.
Proof.
  unfold clean_datacenter_frame. intros H.
  apply parse_opening_dates_cells in H.
  remember (map clip_renewable (filter in_bounds (map normalize_state rows))) as df eqn:E.
  revert rows E. induction H as [|x r df out Hxr _ IH]; intros rows E.
  - assert (Hnil : filter in_bounds rows = []).
    { induction rows as [|y rows IHr]; [reflexivity|]. simpl in E |- *.
      rewrite in_bounds_normalize in E. destruct (in_bounds y); [discriminate | auto]. }
    rewrite Hnil. constructor.
  - induction rows as [|y rows IHr]; [discriminate|].
    simpl in E |- *. rewrite in_bounds_normalize in E.
    destruct (in_bounds y).
    + simpl in E. inversion E; subst. constructor; [|apply IH; reflexivity].
      destruct Hxr as (Hn & _ & _ & _ & _ & _ & Hp). simpl in Hn, Hp. auto.
    + apply IHr. exact E.
Qed.

Lemma load_datacenters_renewable files out s :
  datacenters_clean_csv files = Some out ->
  result_of (load_datacenters files s) = inr (len out)
  /\ map DimDatacenter.renewable_energy_pct
       (dim_datacenters (store (state_of (load_datacenters files s))))
     = map DimDatacenter.renewable_energy_pct (dim_datacenters (store s))
       ++ map CleanDc.renewable_pct out.
Proof.
  intros H. rewrite (load_datacenters_ok files out s H).
  unfold result_of, state_of. simpl. split; [reflexivity|].
  rewrite map_app. f_equal. apply number_from_map. reflexivity.
Qed.

(** C9.  The cleaner clamps the renewable percentage and drops nothing on
    its account: the cleaned table has, in snapshot order, one row per
    snapshot row inside the bounding box, whose renewable percentage is the
    snapshot's clamped to [0, 100]: missing when it is missing, exactly 0
    when it is below 0, the same value when it lies from 0 to 100, exactly
    100 when it is above 100 (150, say).  So every percentage present in
    the cleaned table lies in [0, 100], and [load_datacenters] appends the
    cleaned rows to the Datacenter table with the same percentages. *)
Theorem renewable_pct_clamped fs out :
  result_of (clean_datacenter_data fs) = inr out ->
  (forall r p, In r out -> CleanDc.renewable_pct r = Some p -> (0 <= p <= 100)%Q)
  /\ (exists file rows,
        In file (raw_dir fs) /\ content file = DatacenterCsv rows
        /\ map CleanDc.renewable_pct out
           = map (fun x => clip 0 100 (RawDc.renewable_pct x)) (filter in_bounds rows)
        /\ (forall x p,
              In x rows -> in_bounds x = true ->
              RawDc.renewable_pct x = Some p -> (100 < p)%Q ->
              exists r, In r out /\ CleanDc.name r = RawDc.name x
                        /\ CleanDc.renewable_pct r = Some 100%Q)
        /\ Forall2 (fun x r =>
                      CleanDc.name r = RawDc.name x
                      /\ clamped_pct (RawDc.renewable_pct x) (CleanDc.renewable_pct r))
             (filter in_bounds rows) out
        /\ (forall x p,
              In x rows -> in_bounds x = true ->
              RawDc.renewable_pct x = Some p -> (p < 0)%Q ->
              exists r, In r out /\ CleanDc.name r = RawDc.name x
                        /\ CleanDc.renewable_pct r = Some 0%Q)
        /\ (forall x p,
              In x rows -> in_bounds x = true ->
              RawDc.renewable_pct x = Some p -> (0 <= p <= 100)%Q ->
              exists r, In r out /\ CleanDc.name r = RawDc.name x
                        /\ CleanDc.renewable_pct r = Some p)
        /\ (forall x,
              In x rows -> in_bounds x = true -> RawDc.renewable_pct x = None ->
              exists r, In r out /\ CleanDc.name r = RawDc.name x
                        /\ CleanDc.renewable_pct r = None))
  /\ forall s,
       let files := processed (state_of (clean_datacenter_data fs)) in
       let s' := state_of (load_datacenters files s) in
       result_of (load_datacenters files s) = inr (len out)
       /\ map DimDatacenter.renewable_energy_pct (dim_datacenters (store s'))
          = map DimDatacenter.renewable_energy_pct (dim_datacenters (store s))
            ++ map CleanDc.renewable_pct out.
Proof.
  intros H.
  destruct (clean_datacenter_data_inv fs out H) as (file & rows & Hin & Hc & Hf & Hs).
  pose proof (clean_datacenter_frame_renewable _ _ Hf) as Hren.
  split; [|split].
  - intros r p Hr Hp.
    destruct (Forall2_In_r _ _ _ Hren r Hr) as (x & _ & _ & Hclip).
    rewrite Hclip in Hp. apply (clip_range 0 100 _ p) in Hp; [exact Hp | discriminate].
  - assert (Hrow : forall x, In x rows -> in_bounds x = true ->
                     exists r, In r out /\ CleanDc.name r = RawDc.name x
                               /\ CleanDc.renewable_pct r
                                  = clip 0 100 (RawDc.renewable_pct x)).
    { intros x Hx Hb.
      assert (Hx' : In x (filter in_bounds rows)) by (apply filter_In; auto).
      destruct (Forall2_In_l _ _ _ Hren x Hx') as (r & Hr & Hn & Hclip).
      exists r. auto. }
    exists file, rows.
    split; [exact Hin|]. split; [exact Hc|]. split; [|split; [|split; [|split; [|split]]]].
    + apply (Forall2_map_eq _ _ _ _ _ Hren). intros a b [_ Hb]. exact Hb.
    + intros x p Hx Hb Hp Hgt.
      destruct (Hrow x Hx Hb) as (r & Hr & Hn & Hclip).
      exists r. repeat split; auto.
      rewrite Hclip, Hp. apply clip_above; [discriminate | exact Hgt].
    + eapply Forall2_impl; [|exact Hren].
      intros x r [Hn Hclip]. split; [exact Hn|].
      rewrite Hclip. apply clip_clamped_pct.
    + intros x p Hx Hb Hp Hlt.
      destruct (Hrow x Hx Hb) as (r & Hr & Hn & Hclip).
      exists r. repeat split; auto.
      rewrite Hclip, Hp. now apply clip_below.
    + intros x p Hx Hb Hp Hin01.
      destruct (Hrow x Hx Hb) as (r & Hr & Hn & Hclip).
      exists r. repeat split; auto.
      rewrite Hclip, Hp. now apply clip_inside.
    + intros x Hx Hb Hp.
      destruct (Hrow x Hx Hb) as (r & Hr & Hn & Hclip).
      exists r. repeat split; auto.
      rewrite Hclip, Hp. reflexivity.
  - intros s files s'. subst files s'. rewrite Hs. cbn [processed].
    now apply load_datacenters_renewable.
Qed.

(** ** Generating the consumption estimates *)

(** [bump k s] is [s] after [k] more calls to the random generator. *)
Definition bump (k : nat) (s : Session) : Session :=
  mkSession (store s) (in_transaction s) (cursor_closed s) (conn_closed s)
    (k + rng_calls s).

Definition only_draws (s s' : Session) : Prop := exists k, s' = bump k s.

Lemma only_draws_refl s : only_draws s s.
Proof. exists 0%nat. now destruct s. Qed.

Lemma only_draws_trans a b c : only_draws a b -> only_draws b c -> only_draws a c.
Proof.
  intros [k1 ->] [k2 ->]. exists (k2 + k1)%nat. unfold bump. simpl.
  now rewrite Nat.add_assoc.
Qed.

(** The estimate made from the two draws of one iteration. *)
Definition estimate_from_draws (dc : DimDatacenter.row) (r1 r2 : Q) : estimate :=
  if truthy (DimDatacenter.is_ai_focused dc)
  then estimate_of dc (0.85 + 0.10 * r1)%Q (1.15 + 0.15 * r2)%Q
  else estimate_of dc (0.70 + 0.20 * r1)%Q (1.35 + 0.25 * r2)%Q.

Lemma draw_estimate_run rnd dc s :
  draw_estimate rnd dc s =
  (bump 2 s, [],
   inr (estimate_from_draws dc (rnd (rng_calls s)) (rnd (S (rng_calls s))))).
Proof.
  unfold draw_estimate, estimate_from_draws.
  destruct (truthy (DimDatacenter.is_ai_focused dc)); reflexivity.
Qed.

Section Generation.
Variable rnd : nat -> Q.
Variable ok_draw : Q -> Prop.
Hypothesis rnd_ok : forall n, ok_draw (rnd n).

(** [f] is the record made for the pair [(dc, d)] from two admissible
    draws. *)
Definition generated_from (dc : DimDatacenter.row) (d : DimDate.row)
  (f : ConsumptionFact.row) : Prop :=
  exists r1 r2,
    ok_draw r1 /\ ok_draw r2
    /\ f = consumption_record dc d (estimate_from_draws dc r1 r2).

Lemma consumption_records_run dc_df dates_df s :
  exists s' out per_dc,
    consumption_records rnd dc_df dates_df s = (s', out, inr (List.concat per_dc))
    /\ only_draws s s'
    /\ Forall2 (fun dc fs => Forall2 (generated_from dc) dates_df fs) dc_df per_dc.
Proof.
  unfold consumption_records.
  destruct (for_each_total only_draws
              (fun dc fs => Forall2 (generated_from dc) dates_df fs)
              (fun dc => for_each dates_df (fun d =>
                 e <- draw_estimate rnd dc ;; ret (consumption_record dc d e)))
              only_draws_refl only_draws_trans dc_df) with (s := s)
    as (s' & out & per_dc & Hrun & HR & HF).
  - intros dc s0 _.
    apply (for_each_total only_draws (generated_from dc) _
             only_draws_refl only_draws_trans).
    intros d s1 _. unfold bind, ret. rewrite draw_estimate_run.
    eexists _, _, _. split; [reflexivity|]. split; [now exists 2%nat|].
    eexists _, _. split; [apply rnd_ok|]. split; [apply rnd_ok|]. reflexivity.
  - exists s', (out ++ []), per_dc. rewrite (bind_inr _ _ _ _ _ _ Hrun). auto.
Qed.

Lemma concat_Forall2_In {A B D} (P : A -> B -> D -> Prop) (l1 : list A) (l2 : list B)
  (per : list (list D)) :
  Forall2 (fun a fs => Forall2 (P a) l2 fs) l1 per ->
  (forall f, In f (List.concat per) -> exists a b, In a l1 /\ In b l2 /\ P a b f)
  /\ (forall a b, In a l1 -> In b l2 -> exists f, In f (List.concat per) /\ P a b f).
Proof.
  induction 1 as [|a fs l1 per Hfs _ [IH1 IH2]]; simpl.
  - split; [intros f [] | intros a b []].
  - split.
    + intros f Hf. apply in_app_or in Hf. destruct Hf as [Hf|Hf].
      * destruct (Forall2_In_r _ _ _ Hfs f Hf) as (b & Hb & HP).
        exists a, b. auto.
      * destruct (IH1 f Hf) as (a' & b & Ha & Hb & HP). exists a', b. auto.
    + intros a' b [<-|Ha] Hb.
      * destruct (Forall2_In_l _ _ _ Hfs b Hb) as (f & Hf & HP).
        exists f. split; [apply in_or_app; auto | exact HP].
      * destruct (IH2 a' b Ha Hb) as (f & Hf & HP).
        exists f. split; [apply in_or_app; auto | exact HP].
Qed.

(** A run of [generate_sample_energy_consumption]: it returns, appends one
    record per pair of a Datacenter row and a first-of-month date of the
    window, and touches nothing else in the store. *)
Lemma generate_run s :
  exists k out new,
    generate_sample_energy_consumption rnd s =
    (mkSession (append_consumption new (store s)) (in_transaction s)
       (cursor_closed s) (conn_closed s) (k + rng_calls s),
     out, inr (len new))
    /\ (forall f, In f new ->
          exists dc d,
            In dc (dim_datacenters (store s))
            /\ In d (filter first_of_month_in_window (dim_date (store s)))
            /\ generated_from dc d f)
    /\ (forall dc d,
          In dc (dim_datacenters (store s)) ->
          In d (filter first_of_month_in_window (dim_date (store s))) ->
          exists f, In f new /\ generated_from dc d f).
Proof.
  destruct (consumption_records_run (dim_datacenters (store s))
              (filter first_of_month_in_window (dim_date (store s))) s)
    as (s' & out & per_dc & Hrun & [k ->] & HF).
  exists k. eexists _, (List.concat per_dc).
  split.
  - unfold generate_sample_energy_consumption.
    rewrite (bind_inr _ _ s s [Info "Generating sample energy consumption data..." []] tt
               eq_refl).
    rewrite (bind_inr _ _ s s [] (dim_datacenters (store s)) eq_refl).
    rewrite (bind_inr _ _ s s []
               (filter first_of_month_in_window (dim_date (store s))) eq_refl).
    rewrite (bind_inr _ _ s s _ tt eq_refl).
    rewrite (bind_inr _ _ _ _ _ _ Hrun).
    reflexivity.
  - apply (concat_Forall2_In generated_from _ _ _ HF).
Qed.
End Generation.

(** ** Rounding *)

Lemma round_half_even_bounds (q : Q) (lo hi : Z) :
  (inject_Z lo <= q)%Q -> (q <= inject_Z hi)%Q ->
  lo <= round_half_even q <= hi.
Proof.
  intros Hlo Hhi.
  assert (H1 : lo <= Qfloor q).
  { rewrite <- (Qfloor_Z lo). now apply Qfloor_resp_le. }
  assert (H2 : Qfloor q <= hi).
  { rewrite <- (Qfloor_Z hi). now apply Qfloor_resp_le. }
  assert (H3 : (inject_Z (Qfloor q) < q)%Q -> Qfloor q + 1 <= hi).
  { intros Hlt. assert (Hq : (inject_Z (Qfloor q) < inject_Z hi)%Q).
    { eapply Qlt_le_trans; eauto. }
    rewrite <- Zlt_Qlt in Hq. lia. }
  unfold round_half_even. cbv zeta.
  destruct (Qcompare_spec (q - inject_Z (Qfloor q)) (1 # 2)) as [He|Hl|Hg].
  - assert (Hlt : (inject_Z (Qfloor q) < q)%Q) by lra.
    apply H3 in Hlt. destruct (Z.even (Qfloor q)); lia.
  - lia.
  - assert (Hlt : (inject_Z (Qfloor q) < q)%Q) by lra.
    apply H3 in Hlt. lia.
Qed.


Lemma round2_bounds (x : Q) (lo hi : Z) :
  (inject_Z lo <= x * 100)%Q -> (x * 100 <= inject_Z hi)%Q ->
  exists q, round2 (Some x) = Some q
            /\ (inject_Z lo / 100 <= q)%Q /\ (q <= inject_Z hi / 100)%Q.
Proof.
  intros Hlo Hhi.
  destruct (round_half_even_bounds (x * 100) lo hi Hlo Hhi) as [H1 H2].
  eexists. split; [reflexivity|].
  rewrite Zle_Qle in H1, H2.
  remember (inject_Z (round_half_even (x * 100))) as r.
  remember (inject_Z lo) as l. remember (inject_Z hi) as h.
  unfold Qdiv. change (/ 100)%Q with (1 # 100)%Q. lra.
Qed.

(** The two draws of an iteration give a utilization and a PUE in the
    ranges of the datacenter's kind. *)
Lemma estimate_from_draws_ranges dc r1 r2 :
  (0 <= r1 < 1)%Q -> (0 <= r2 < 1)%Q ->
  let e := estimate_from_draws dc r1 r2 in
  if truthy (DimDatacenter.is_ai_focused dc)
  then (0.85 <= utilization e <= 0.95)%Q /\ (1.15 <= pue e <= 1.30)%Q
  else (0.70 <= utilization e <= 0.90)%Q /\ (1.35 <= pue e <= 1.60)%Q.
Proof.
  intros H1 H2. unfold estimate_from_draws.
  destruct (truthy (DimDatacenter.is_ai_focused dc)); simpl; lra.
Qed.

Lemma estimate_from_draws_formula dc r1 r2 :
  let e := estimate_from_draws dc r1 r2 in
  monthly_consumption e
  = fmul (fmul (DimDatacenter.capacity_mw dc) (of_int 730)) (Some (utilization e))
  /\ renewable_mwh e
     = fmul (monthly_consumption e)
         (fdiv (match DimDatacenter.renewable_energy_pct dc with
                | Some p => Some p
                | None => of_int 0
                end) (of_int 100)).
Proof.
  unfold estimate_from_draws.
  destruct (truthy (DimDatacenter.is_ai_focused dc)); simpl;
    destruct (DimDatacenter.renewable_energy_pct dc); auto.
Qed.


(** ** A missing renewable percentage *)

Lemma clip_missing lower upper : clip lower upper None = None.
Proof. reflexivity. Qed.



(** ** Resolving dates to surrogate keys *)

Lemma date_eqb_eq a b : date_eqb a b = true <-> a = b.
Proof.
  unfold date_eqb. rewrite !andb_true_iff, !Z.eqb_eq. split.
  - intros [[Hy Hm] Hd]. destruct a, b; simpl in *; congruence.
  - intros ->. auto.
Qed.

Lemma date_eqb_sym a b : date_eqb a b = date_eqb b a.
Proof. unfold date_eqb. now rewrite (Z.eqb_sym (year a)), (Z.eqb_sym (month a)), (Z.eqb_sym (day a)). Qed.

(** The dimension rows whose literal date is [d]. *)
Definition matches (dim : list DimDate.row) (d : date) : list DimDate.row :=
  filter (fun r => date_eqb (DimDate.full_date r) d) dim.

Definition matched (dim : list DimDate.row) (row : CleanPrice.row) : bool :=
  existsb (fun r => date_eqb (DimDate.full_date r) (CleanPrice.date row)) dim.

Lemma matches_nil dim d : matches dim d = [] <-> find (fun r => date_eqb (DimDate.full_date r) d) dim = None.
Proof.
  unfold matches. induction dim as [|r dim IH]; simpl; [tauto|].
  destruct (date_eqb (DimDate.full_date r) d); [split; discriminate | exact IH].
Qed.

Lemma matched_matches dim row :
  matched dim row = false <-> matches dim (CleanPrice.date row) = [].
Proof.
  unfold matched, matches. induction dim as [|r dim IH]; simpl; [tauto|].
  destruct (date_eqb (DimDate.full_date r) (CleanPrice.date row)); simpl;
    [split; discriminate | exact IH].
Qed.

(** In a date dimension with one row per day, a date matches at most one
    row, and that row is the one a point query finds. *)
Lemma matches_unique dim d :
  NoDup (map DimDate.full_date dim) ->
  matches dim d =
  match find (fun r => date_eqb (DimDate.full_date r) d) dim with
  | Some r => [r]
  | None => []
  end.
Proof.
  unfold matches. induction dim as [|r dim IH]; simpl; intros Hnd; [reflexivity|].
  inversion Hnd as [|? ? Hnotin Hnd']; subst.
  destruct (date_eqb (DimDate.full_date r) d) eqn:E.
  - f_equal. apply date_eqb_eq in E.
    destruct (filter _ dim) as [|r' l] eqn:Hf; [reflexivity|].
    exfalso. apply Hnotin.
    assert (Hin : In r' (filter (fun r0 => date_eqb (DimDate.full_date r0) d) dim))
      by (rewrite Hf; now left).
    apply filter_In in Hin. destruct Hin as [Hin Hd]. apply date_eqb_eq in Hd.
    rewrite E, <- Hd. now apply in_map.
  - now apply IH.
Qed.

(** What the per-row loop collects, as a function of the table and of the
    date dimension. *)
Definition per_row_facts (db : Database) (df : list CleanPrice.row)
  : list PriceFact.row :=
  flat_map (fun row =>
    match select_date_id (CleanPrice.date row) db with
    | Some date_id => [retail_fact row date_id]
    | None => []
    end) df.

Definition begin_transaction (s : Session) : Session :=
  mkSession (store s) true (cursor_closed s) (conn_closed s) (rng_calls s).

Lemma price_loop_run total df : forall idx s,
  exists s' out,
    price_loop total idx df s = (s', out, inr (per_row_facts (store s) df))
    /\ store s' = store s /\ rng_calls s' = rng_calls s
    /\ warnings out = 0%nat.
Proof.
  induction df as [|row df IH]; intros idx s; simpl.
  - exists s, []. auto.
  - destruct (IH (idx + 1) (begin_transaction s)) as (s' & out & Hrun & Hst & Hrng & Hw).
    simpl in Hst, Hrng.
    set (progress := if idx mod 500 =? 0
                     then [Info "Progress" [idx; total]] else []).
    exists s'.
    exists (progress ++ [] ++ out ++
            match select_date_id (CleanPrice.date row) (store s) with
            | Some _ => [] | None => [] end).
    unfold bind at 1.
    assert (Hp : (if idx mod 500 =? 0 then print (Info "Progress" [idx; total]) else ret tt) s
                 = (s, progress, inr tt)).
    { unfold progress. destruct (idx mod 500 =? 0); reflexivity. }
    rewrite Hp. unfold bind at 1.
    change (cursor_execute (select_date_id (CleanPrice.date row)) s)
      with (begin_transaction s, @nil message,
            @inr exn _ (select_date_id (CleanPrice.date row) (store s))).
    cbv iota beta. unfold bind at 1. rewrite Hrun. simpl.
    destruct (select_date_id (CleanPrice.date row) (store s)) as [id|]; simpl;
      (split; [reflexivity|]); repeat split; auto;
      unfold warnings in *; rewrite !filter_app, !length_app, Hw;
      unfold progress; destruct (idx mod 500 =? 0); reflexivity.
Qed.

Lemma append_prices_nil db : append_prices [] db = db.
Proof. destruct db. unfold append_prices. simpl. now rewrite app_nil_r. Qed.

Lemma len_pos_cons {A} (x : A) l : (0 <? len (x :: l)) = true.
Proof. apply Z.ltb_lt. unfold len. simpl. lia. Qed.

(** A run of the per-row [load_electricity_prices] on a cleaned table. *)
Lemma load_electricity_prices_run files df s :
  eia_prices_clean_csv files = Some df ->
  exists s' out,
    load_electricity_prices files s
    = (s', out, inr (len (per_row_facts (store s) df)))
    /\ store s' = append_prices (per_row_facts (store s) df) (store s)
    /\ rng_calls s' = rng_calls s
    /\ warnings out = if 0 <? len (per_row_facts (store s) df) then 0%nat else 1%nat.
Proof.
  intros Hfile. unfold load_electricity_prices, read_csv. rewrite Hfile.
  destruct (price_loop_run (len df) df 0 s) as (s1 & out1 & Hloop & Hst & Hrng & Hw).
  rewrite (bind_inr _ _ s s [Info "Loading electricity prices..." []] tt eq_refl).
  rewrite (bind_inr _ _ s s [] df eq_refl).
  rewrite (bind_inr _ _ s s [Info "Processing price records..." [len df]] tt eq_refl).
  rewrite (bind_inr _ _ _ _ _ _ Hloop).
  destruct (per_row_facts (store s) df) as [|f facts] eqn:Hfacts.
  - change (0 <? len (@nil PriceFact.row)) with false. cbv iota.
    eexists _, _. split; [reflexivity|]. simpl.
    rewrite append_prices_nil. repeat split; auto.
    unfold warnings in *. simpl. rewrite filter_app, length_app, Hw. reflexivity.
  - rewrite (len_pos_cons f facts). cbv iota.
    eexists _, _. split; [reflexivity|]. simpl.
    rewrite Hst. repeat split; auto.
    unfold warnings in *. simpl. rewrite filter_app, length_app, Hw. reflexivity.
Qed.

(** The rows of [price_df], as a function of the table and of the date
    dimension. *)
Definition average_row (row : CleanPrice.row) (date_id : Z) : PriceFact.row :=
  PriceFact.mk (CleanPrice.state row) date_id (CleanPrice.price_per_kwh row)
    (CleanPrice.price_cents_per_kwh row) (CleanPrice.sales_mwh row) "average"
    (CleanPrice.sectorName row).

Definition bulk_facts (dim : list DimDate.row) (df : list CleanPrice.row)
  : list PriceFact.row :=
  flat_map (fun row =>
    map (fun d => average_row row (DimDate.date_id d))
      (matches dim (CleanPrice.date row))) df.

Lemma price_frame_app l1 l2 f1 f2 :
  price_frame l1 = inr f1 -> price_frame l2 = inr f2 ->
  price_frame (l1 ++ l2) = inr (f1 ++ f2).
Proof.
  revert f1. induction l1 as [|r l1 IH]; simpl; intros f1 H1 H2.
  - inversion H1. exact H2.
  - destruct (average_fact r) as [e|f]; [discriminate|].
    destruct (price_frame l1) as [e|fs]; [discriminate|].
    inversion H1; subst. now rewrite (IH fs eq_refl H2).
Qed.

Lemma price_frame_matches row ms :
  price_frame (map (fun d => (row, Some (DimDate.date_id d))) ms)
  = inr (map (fun d => average_row row (DimDate.date_id d)) ms).
Proof.
  induction ms as [|d ms IH]; simpl; [reflexivity|]. now rewrite IH.
Qed.

Lemma filter_all {A} (p : A -> bool) l :
  (forall x, In x l -> p x = true) -> filter p l = l.
Proof.
  induction l as [|x l IH]; simpl; intros H; [reflexivity|].
  rewrite (H x (or_introl eq_refl)), IH; auto.
Qed.

Lemma filter_none {A} (p : A -> bool) l :
  (forall x, In x l -> p x = false) -> filter p l = [].
Proof.
  induction l as [|x l IH]; simpl; intros H; [reflexivity|].
  rewrite (H x (or_introl eq_refl)), IH; auto.
Qed.

Lemma merge_left_matches dim row :
  filter (fun d => date_eqb (CleanPrice.date row) (DimDate.full_date d)) dim
  = matches dim (CleanPrice.date row).
Proof. unfold matches. apply filter_ext. intros d. apply date_eqb_sym. Qed.

Lemma merge_one dim row :
  let one :=
    match filter (fun d => date_eqb (CleanPrice.date row) (DimDate.full_date d)) dim with
    | [] => [(row, None)]
    | ms => map (fun d => (row, Some (DimDate.date_id d))) ms
    end in
  filter (fun r => notna (snd r)) one
  = map (fun d => (row, Some (DimDate.date_id d))) (matches dim (CleanPrice.date row))
  /\ List.length (filter (fun r => negb (notna (snd r))) one)
     = List.length (filter (fun row => negb (matched dim row)) [row]).
Proof.
  cbv zeta. rewrite merge_left_matches.
  destruct (matches dim (CleanPrice.date row)) as [|d ms] eqn:Hm.
  - apply matched_matches in Hm. simpl. rewrite Hm. auto.
  - assert (Hmatched : matched dim row = true).
    { destruct (matched dim row) eqn:E; [reflexivity|].
      apply matched_matches in E. congruence. }
    cbn [filter]. rewrite Hmatched. cbn [negb].
    split.
    + apply filter_all. intros x Hx. apply in_map_iff in Hx.
      now destruct Hx as (? & <- & _).
    + rewrite filter_none; [reflexivity|]. intros x Hx. apply in_map_iff in Hx.
      now destruct Hx as (? & <- & _).
Qed.

(** After the rows with a missing key are dropped, [price_df] is
    [bulk_facts]; the rows dropped are the rows without a match. *)
Lemma merge_left_facts dim df :
  price_frame (filter (fun r => notna (snd r)) (merge_left df dim))
  = inr (bulk_facts dim df)
  /\ List.length (filter (fun r => negb (notna (snd r))) (merge_left df dim))
     = List.length (filter (fun row => negb (matched dim row)) df).
Proof.
  induction df as [|row df [IH1 IH2]]; [simpl; auto|].
  unfold merge_left in *. cbn [flat_map bulk_facts].
  destruct (merge_one dim row) as [H1 H2]. cbv zeta in H1, H2.
  rewrite !filter_app, length_app, H1, H2, IH2. split.
  - apply price_frame_app; [apply price_frame_matches | exact IH1].
  - cbn [filter]. destruct (negb (matched dim row)); reflexivity.
Qed.

Lemma filter_negb_nil {A} (p : A -> bool) l :
  filter (fun x => negb (p x)) l = [] -> filter p l = l.
Proof.
  induction l as [|x l IH]; simpl; [reflexivity|].
  destruct (p x); simpl; [|discriminate]. intros H. now rewrite IH.
Qed.

(** A run of the bulk [load_eia_prices] on a cleaned table. *)
Lemma load_eia_prices_run df db :
  exists out,
    load_eia_prices (Some df) db
    = (append_prices (bulk_facts (dim_date db) df) db, out,
       inr (len (bulk_facts (dim_date db) df)))
    /\ warnings out
       = if 0 <? len (filter (fun row => negb (matched (dim_date db) row)) df)
         then 1%nat else 0%nat.
Proof.
  destruct (merge_left_facts (dim_date db) df) as [Hframe Hmissing].
  assert (Hlen : len (filter (fun r => negb (notna (snd r))) (merge_left df (dim_date db)))
                 = len (filter (fun row => negb (matched (dim_date db) row)) df)).
  { unfold len. now rewrite Hmissing. }
  rewrite <- Hlen.
  unfold load_eia_prices, read_csv, bind, print, get, ret, modify, lift_result.
  cbv beta iota zeta.
  destruct (0 <? len (filter (fun r => negb (notna (snd r)))
                        (merge_left df (dim_date db)))) eqn:E.
  - rewrite Hframe. eexists. split; reflexivity.
  - assert (Hnil : filter (fun r => negb (notna (snd r))) (merge_left df (dim_date db)) = []).
    { apply Z.ltb_ge in E.
      destruct (filter (fun r => negb (notna (snd r))) (merge_left df (dim_date db)));
        [reflexivity|].
      unfold len in E. simpl in E. lia. }
    apply filter_negb_nil in Hnil. rewrite Hnil in Hframe.
    rewrite Hframe. eexists. split; reflexivity.
Qed.

(** The fact rows made with [mk] from the rows whose date a point query
    finds in the dimension. *)
Definition keyed_facts (mk : CleanPrice.row -> Z -> PriceFact.row)
  (dim : list DimDate.row) (df : list CleanPrice.row) : list PriceFact.row :=
  flat_map (fun row =>
    match find (fun r => date_eqb (DimDate.full_date r) (CleanPrice.date row)) dim with
    | Some d => [mk row (DimDate.date_id d)]
    | None => []
    end) df.

Lemma per_row_facts_keyed db df :
  per_row_facts db df = keyed_facts retail_fact (dim_date db) df.
Proof.
  unfold per_row_facts, keyed_facts, select_date_id.
  induction df as [|row df IH]; simpl; [reflexivity|]. rewrite IH.
  now destruct (find _ (dim_date db)).
Qed.

Lemma bulk_facts_keyed dim df :
  NoDup (map DimDate.full_date dim) ->
  bulk_facts dim df = keyed_facts average_row dim df.
Proof.
  intros Hnd. unfold bulk_facts, keyed_facts.
  induction df as [|row df IH]; simpl; [reflexivity|].
  rewrite IH, (matches_unique dim _ Hnd).
  now destruct (find _ dim).
Qed.

(** [f] carries the measures of [row] and the key of a dimension row whose
    literal date is the date of [row]. *)
Definition resolves (dim : list DimDate.row) (row : CleanPrice.row)
  (f : PriceFact.row) : Prop :=
  PriceFact.region f = CleanPrice.state row
  /\ PriceFact.price_per_kwh f = CleanPrice.price_per_kwh row
  /\ PriceFact.price_cents_per_kwh f = CleanPrice.price_cents_per_kwh row
  /\ PriceFact.sales_mwh f = CleanPrice.sales_mwh row
  /\ exists d, In d dim /\ DimDate.full_date d = CleanPrice.date row
               /\ PriceFact.date_id f = DimDate.date_id d.

Definition keeps_measures (mk : CleanPrice.row -> Z -> PriceFact.row) : Prop :=
  forall row id,
    PriceFact.region (mk row id) = CleanPrice.state row
    /\ PriceFact.price_per_kwh (mk row id) = CleanPrice.price_per_kwh row
    /\ PriceFact.price_cents_per_kwh (mk row id) = CleanPrice.price_cents_per_kwh row
    /\ PriceFact.sales_mwh (mk row id) = CleanPrice.sales_mwh row
    /\ PriceFact.date_id (mk row id) = id.

Lemma retail_keeps : keeps_measures retail_fact.
Proof. intros row id. repeat split. Qed.

Lemma average_keeps : keeps_measures average_row.
Proof. intros row id. repeat split. Qed.

Lemma find_matched dim row :
  match find (fun r => date_eqb (DimDate.full_date r) (CleanPrice.date row)) dim with
  | Some d => matched dim row = true /\ In d dim
              /\ DimDate.full_date d = CleanPrice.date row
  | None => matched dim row = false
  end.
Proof.
  destruct (find _ dim) as [d|] eqn:Hfind.
  - apply find_some in Hfind. destruct Hfind as [Hin Heq].
    repeat split; auto.
    + unfold matched. apply existsb_exists. eauto.
    + now apply date_eqb_eq.
  - apply matched_matches, matches_nil. exact Hfind.
Qed.

Lemma keyed_facts_resolves mk dim df :
  keeps_measures mk ->
  Forall2 (resolves dim) (filter (matched dim) df) (keyed_facts mk dim df).
Proof.
  intros Hmk. unfold keyed_facts.
  induction df as [|row df IH]; simpl; [constructor|].
  pose proof (find_matched dim row) as Hfind.
  destruct (find _ dim) as [d|].
  - destruct Hfind as (Hm & Hin & Hdate). rewrite Hm. simpl.
    constructor; [|exact IH].
    destruct (Hmk row (DimDate.date_id d)) as (H1 & H2 & H3 & H4 & H5).
    repeat split; auto. exists d. auto.
  - rewrite Hfind. exact IH.
Qed.

Lemma keyed_facts_unmatched mk dim row :
  matched dim row = false -> keyed_facts mk dim [row] = [].
Proof.
  intros Hm. unfold keyed_facts. simpl.
  pose proof (find_matched dim row) as Hfind.
  destruct (find _ dim); [|reflexivity]. destruct Hfind. congruence.
Qed.

(** C2.  Both loaders of the price table, the per-row
    [load_electricity_prices] and the bulk [load_eia_prices] (over a date
    dimension with one row per day), return and append to
    ElectricityPriceFact one row for each row of the cleaned table whose
    date is in the date dimension, in table order and with the row's
    region and measures; the [date_id] of the appended row is the key of a
    dimension row with that literal date.  Rows whose date has no match are
    left out and the value returned is the number of rows appended.  On a
    one-row table whose date has no match nothing is appended, the value
    returned is 0 and exactly one warning is printed. *)
Theorem load_prices_date_keys (df : list CleanPrice.row) :
  (forall files s,
     eia_prices_clean_csv files = Some df ->
     exists loaded,
       result_of (load_electricity_prices files s) = inr (len loaded)
       /\ fact_electricity_prices (store (state_of (load_electricity_prices files s)))
          = fact_electricity_prices (store s) ++ loaded
       /\ Forall2 (resolves (dim_date (store s)))
            (filter (matched (dim_date (store s))) df) loaded
       /\ (forall row,
             df = [row] -> matched (dim_date (store s)) row = false ->
             loaded = []
             /\ warnings (output_of (load_electricity_prices files s)) = 1%nat))
  /\ (forall db,
        NoDup (map DimDate.full_date (dim_date db)) ->
        exists loaded,
          result_of (load_eia_prices (Some df) db) = inr (len loaded)
          /\ fact_electricity_prices (state_of (load_eia_prices (Some df) db))
             = fact_electricity_prices db ++ loaded
          /\ Forall2 (resolves (dim_date db)) (filter (matched (dim_date db)) df) loaded
          /\ (forall row,
                df = [row] -> matched (dim_date db) row = false ->
                loaded = []
                /\ warnings (output_of (load_eia_prices (Some df) db)) = 1%nat)).
Proof.
  split.
  - intros files s Hfile.
    destruct (load_electricity_prices_run files df s Hfile)
      as (s' & out & Hrun & Hst & _ & Hw).
    exists (per_row_facts (store s) df). rewrite Hrun.
    unfold result_of, state_of, output_of. simpl. rewrite Hst.
    split; [reflexivity|]. split; [reflexivity|].
    rewrite per_row_facts_keyed in *. split.
    + apply keyed_facts_resolves, retail_keeps.
    + intros row -> Hm. rewrite (keyed_facts_unmatched _ _ _ Hm) in *. auto.
  - intros db Hnd.
    destruct (load_eia_prices_run df db) as (out & Hrun & Hw).
    exists (bulk_facts (dim_date db) df). rewrite Hrun.
    unfold result_of, state_of, output_of. simpl.
    split; [reflexivity|]. split; [reflexivity|].
    rewrite (bulk_facts_keyed _ _ Hnd). split.
    + apply keyed_facts_resolves, average_keeps.
    + intros row -> Hm. split; [now apply keyed_facts_unmatched|].
      rewrite Hw. simpl. now rewrite Hm.
Qed.





(** ** The full load *)

Lemma load_electricity_prices_missing files s :
  eia_prices_clean_csv files = None ->
  load_electricity_prices files s =
  (s, [Info "Loading electricity prices..." []],
   inl (FileNotFoundError "eia_prices_clean.csv")).
Proof.
  intros H. unfold load_electricity_prices, read_csv, bind, print, raise.
  rewrite H. reflexivity.
Qed.

(** What [verify_data_integrity] prints. *)
Definition orphan_report (db : Database) : message :=
  if orphans db =? 0
  then Info "No orphaned energy consumption records" []
  else Warning "Found orphaned energy consumption records" [orphans db].

Definition verify_report (db : Database) : list message :=
  [ Info "Verifying data integrity..." [];
    Info "dim_datacenters records" [len (dim_datacenters db)];
    Info "dim_date records" [len (dim_date db)];
    Info "fact_electricity_prices records" [len (fact_electricity_prices db)];
    Info "fact_energy_consumption records" [len (fact_energy_consumption db)];
    Info "Checking referential integrity..." [];
    orphan_report db ].

(** Finds a message in an output given as a list of conses and appends. *)
Ltac in_output :=
  solve [ left; reflexivity
        | right; in_output
        | apply in_or_app; left; in_output
        | apply in_or_app; right; in_output ].

Lemma verify_data_integrity_run s :
  verify_data_integrity s = (begin_transaction s, verify_report (store s), inr true).
Proof.
  unfold verify_data_integrity, verify_report, orphan_report, bind, print,
    cursor_execute, modify, get, ret. simpl.
  destruct (orphans (store s) =? 0); reflexivity.
Qed.

Lemma has_datacenter_In db dc :
  In dc (dim_datacenters db) -> has_datacenter db (DimDatacenter.datacenter_id dc) = true.
Proof.
  intros H. unfold has_datacenter. apply existsb_exists.
  exists dc. split; [exact H | apply Z.eqb_refl].
Qed.






(** The three ways the [try] block can go: the facility file is missing,
    the price file is missing, or every step returns. *)
Lemma load_all_run files rnd s :
  match datacenters_clean_csv files, eia_prices_clean_csv files with
  | None, _ =>
      exists out,
        load_all files rnd s
        = (s, out, inl (FileNotFoundError "datacenters_clean.csv"))
  | Some dcs, None =>
      exists s1 out,
        load_all files rnd s
        = (s1, out, inl (FileNotFoundError "eia_prices_clean.csv"))
        /\ store s1 = append_datacenters (map to_dim_datacenter dcs) (store s)
  | Some dcs, Some df =>
      let db1 := append_datacenters (map to_dim_datacenter dcs) (store s) in
      let db2 := append_prices (per_row_facts db1 df) db1 in
      exists s1 out new,
        load_all files rnd s = (s1, out, inr true)
        /\ store s1 = append_consumption new db2
        /\ (forall f, In f new ->
              has_datacenter db2 (ConsumptionFact.datacenter_id f) = true)
        /\ In (orphan_report (store s1)) out
  end.
Proof.
  unfold load_all.
  destruct (datacenters_clean_csv files) as [dcs|] eqn:Hdc.
  - rewrite (bind_inr _ _ _ _ _ _ (load_datacenters_ok files dcs s Hdc)).
    set (s0 := mkSession (append_datacenters (map to_dim_datacenter dcs) (store s))
                 (in_transaction s) (cursor_closed s) (conn_closed s) (rng_calls s)).
    destruct (eia_prices_clean_csv files) as [df|] eqn:Hp.
    + destruct (load_electricity_prices_run files df s0 Hp)
        as (s2 & out2 & Hrun2 & Hst2 & _ & _).
      rewrite (bind_inr _ _ _ _ _ _ Hrun2).
      destruct (generate_run rnd (fun _ => True) (fun _ => I) s2)
        as (k & out3 & new & Hrun3 & Hsound & _).
      rewrite (bind_inr _ _ _ _ _ _ Hrun3).
      rewrite (bind_inr _ _ _ _ _ _ (verify_data_integrity_run _)).
      cbv zeta. eexists _, _, new. split; [reflexivity|]. simpl.
      rewrite Hst2. simpl. split; [reflexivity|]. split.
      * intros f Hf. destruct (Hsound f Hf) as (dc & d & Hin & _ & r1 & r2 & _ & _ & ->).
        simpl. rewrite Hst2 in Hin. now apply has_datacenter_In.
      * in_output.
    + rewrite (bind_inl _ _ _ _ _ _ (load_electricity_prices_missing files s0 Hp)).
      eexists _, _. split; reflexivity.
  - rewrite (bind_inl _ _ _ _ _ _ (load_datacenters_missing files s Hdc)).
    eexists. reflexivity.
Qed.

(** [run_full_load] around its [try] block: the handler on an exception,
    then the [finally] block in every case. *)
Lemma run_full_load_run files rnd s s1 out r :
  load_all files rnd s = (s1, out, r) ->
  exists out',
    run_full_load files rnd s
    = (mkSession (store s1) false true true (rng_calls s1), out',
       inr (match r with inl _ => false | inr b => b end))
    /\ (forall m, In m out -> In m out')
    /\ (forall e, r = inl e ->
          In (Error ("Error during loading: " ++ exn_text e)) out'
          /\ In (Error "Traceback (most recent call last)") out').
Proof.
  intros H. unfold run_full_load, try_finally, try_except, bind, print.
  rewrite H. destruct r as [e|b]; simpl.
  - eexists. split; [reflexivity|]. split.
    + intros m Hm. right. apply in_or_app. left. apply in_or_app. now left.
    + intros e' He. inversion He; subst e'. split; in_output.
  - eexists. split; [reflexivity|]. split.
    + intros m Hm. right. apply in_or_app. left. exact Hm.
    + intros e' He. discriminate.
Qed.














(** * Running the cleaner again *)

(** A file system with the snapshots [raw] and nothing cleaned yet. *)
Definition fresh (raw : list raw_file) : filesystem :=
  mkFs raw (mkProcessed None None).

(** [clean_eia_prices] reads the raw directory only, and writes the price
    file only. *)
Lemma clean_eia_prices_shape raw p :
  clean_eia_prices (mkFs raw p) =
  (match result_of (clean_eia_prices (fresh raw)) with
   | inr df => mkFs raw (mkProcessed (Some df) (datacenters_clean_csv p))
   | inl _ => mkFs raw p
   end,
   output_of (clean_eia_prices (fresh raw)),
   result_of (clean_eia_prices (fresh raw))).
Proof.
  unfold clean_eia_prices, get_latest_file, write_prices_clean, fresh, bind, print,
    get, ret, raise, lift_result, modify, result_of, output_of.
  simpl.
  destruct (filter (fun f => glob_match "eia_electricity_prices_" ".csv" (path f)) raw)
    as [|f rest]; simpl; [reflexivity|].
  destruct (content (max_by_ctime f rest)) as [rows|rows|]; simpl; try reflexivity.
  destruct (clean_price_frame rows) as [e|[n df]]; reflexivity.
Qed.

Lemma clean_datacenter_data_shape raw p :
  clean_datacenter_data (mkFs raw p) =
  (match result_of (clean_datacenter_data (fresh raw)) with
   | inr df => mkFs raw (mkProcessed (eia_prices_clean_csv p) (Some df))
   | inl _ => mkFs raw p
   end,
   output_of (clean_datacenter_data (fresh raw)),
   result_of (clean_datacenter_data (fresh raw))).
Proof.
  unfold clean_datacenter_data, get_latest_file, write_datacenters_clean, fresh, bind,
    print, get, ret, raise, lift_result, modify, result_of, output_of.
  simpl.
  destruct (filter (fun f => glob_match "datacenters_" ".csv" (path f)) raw)
    as [|f rest]; simpl; [reflexivity|].
  destruct (content (max_by_ctime f rest)) as [rows|rows|]; simpl; try reflexivity.
  destruct (clean_datacenter_frame rows) as [e|df]; reflexivity.
Qed.

(** The outcome of [run_all_cleaning] on the snapshots [raw] and the
    processed directory [p]. *)
Definition cleaned (raw : list raw_file) (p : processed_dir)
  : filesystem * list message * (exn + list CleanPrice.row * list CleanDc.row) :=
  let r1 := clean_eia_prices (fresh raw) in
  let r2 := clean_datacenter_data (fresh raw) in
  match result_of r1 with
  | inl e =>
      (mkFs raw p, Info "Starting Data Cleaning Process" [] :: output_of r1, inl e)
  | inr df1 =>
      match result_of r2 with
      | inl e =>
          (mkFs raw (mkProcessed (Some df1) (datacenters_clean_csv p)),
           Info "Starting Data Cleaning Process" [] :: output_of r1 ++ output_of r2,
           inl e)
      | inr df2 =>
          (mkFs raw (mkProcessed (Some df1) (Some df2)),
           Info "Starting Data Cleaning Process" []
           :: output_of r1 ++ output_of r2 ++ [Info "Data cleaning complete!" []],
           inr (df1, df2))
      end
  end.

Lemma run_all_cleaning_cleaned raw p :
  run_all_cleaning (mkFs raw p) = cleaned raw p.
Proof.
  unfold run_all_cleaning, cleaned. unfold bind at 1. unfold print at 1.
  unfold bind at 1. rewrite clean_eia_prices_shape.
  destruct (result_of (clean_eia_prices (fresh raw))) as [e|df1]; [reflexivity|].
  unfold bind at 1. rewrite clean_datacenter_data_shape. cbn [datacenters_clean_csv eia_prices_clean_csv].
  destruct (result_of (clean_datacenter_data (fresh raw))) as [e|df2]; reflexivity.
Qed.

(** C8.  The cleaner ([clean_eia_prices], then [clean_datacenter_data])
    reads nothing but the raw directory: on two file systems with the same
    snapshots it returns the same value and prints the same lines, and
    when it returns the cleaned files it leaves are the same.  It does not
    touch the raw directory, so that a second run, started where the first
    one ended, repeats the first: same value, same output, same cleaned
    files. *)
Theorem cleaning_twice fs fs' :
  raw_dir fs' = raw_dir fs ->
  (result_of (run_all_cleaning fs') = result_of (run_all_cleaning fs)
   /\ output_of (run_all_cleaning fs') = output_of (run_all_cleaning fs)
   /\ (forall r, result_of (run_all_cleaning fs) = inr r ->
         processed (state_of (run_all_cleaning fs'))
         = processed (state_of (run_all_cleaning fs))))
  /\ raw_dir (state_of (run_all_cleaning fs)) = raw_dir fs
  /\ run_all_cleaning (state_of (run_all_cleaning fs)) = run_all_cleaning fs.
Proof.
  destruct fs as [raw p], fs' as [raw' p']. simpl. intros ->.
  rewrite !run_all_cleaning_cleaned. unfold cleaned, result_of, output_of, state_of.
  destruct (snd (clean_eia_prices (fresh raw))) as [e1|df1] eqn:E1; simpl.
  - repeat split; try discriminate.
    rewrite run_all_cleaning_cleaned. unfold cleaned, result_of. now rewrite E1.
  - destruct (snd (clean_datacenter_data (fresh raw))) as [e2|df2] eqn:E2; simpl.
    + repeat split; try discriminate.
      rewrite run_all_cleaning_cleaned. unfold cleaned, result_of. now rewrite E1, E2.
    + repeat split.
      rewrite run_all_cleaning_cleaned. unfold cleaned, result_of. now rewrite E1, E2.
Qed.

(** * The properties on a sample run *)

Definition sample_raw_prices : list RawPrice.row :=
  [ RawPrice.mk (Period 2023 5) (Some "VA") (Some "all sectors")
      (Some 12.5%Q) (Some 9500%Q);
    RawPrice.mk (Period 2023 5) (Some "CA") (Some "all sectors")
      (Some 150%Q) (Some 20000%Q);
    RawPrice.mk (Period 2023 6) (Some "TX") (Some "all sectors")
      None (Some 30000%Q);
    RawPrice.mk (Period 2023 6) (Some "VA") (Some "all sectors")
      (Some 13%Q) None ].

Definition sample_raw_datacenters : list RawDc.row :=
  [ RawDc.mk (Some "Virginia Data Center 1") (Some "AWS") (Some "Ashburn")
      (Some " va") (Some 39.0438%Q) (Some (-77.4874)%Q) (Some 100%Q) (Some true)
      (DateCell (mkDate 2020 6 15)) (Some 150%Q);
    RawDc.mk (Some "Equatorial Annex") (Some "AWS") (Some "Nowhere")
      (Some "VA") (Some 10%Q) (Some (-77.4874)%Q) (Some 150%Q) (Some true)
      (DateCell (mkDate 2021 1 10)) (Some 65%Q);
    RawDc.mk (Some "Oregon Data Hub") (Some "Meta") (Some "Prineville")
      (Some "OR") (Some 44.2999%Q) (Some (-120.8342)%Q) (Some 100%Q) (Some false)
      BlankCell None ].

Definition sample_fs : filesystem :=
  mkFs
    [ mkRawFile "eia_electricity_prices_20240101_120000.csv" 100
        (PriceCsv [RawPrice.mk (BadPeriod "n/a") None None None None]);
      mkRawFile "eia_electricity_prices_20240301_120000.csv" 300
        (PriceCsv sample_raw_prices);
      mkRawFile "eia_generation_20240301_120000.csv" 301 OtherCsv;
      mkRawFile "datacenters_sample_20240301_120000.csv" 302
        (DatacenterCsv sample_raw_datacenters) ]
    (mkProcessed None None).

Definition sample_clean_prices : list CleanPrice.row :=
  [ CleanPrice.mk (mkDate 2023 5 1) (Some "VA") (Some "all sectors")
      (Some 12.5%Q) (Some 9500%Q) (Some (12.5 / 100)%Q) ].

Definition sample_clean_datacenters : list CleanDc.row :=
  [ CleanDc.mk (Some "Virginia Data Center 1") (Some "AWS") (Some "Ashburn")
      (Some "VA") (Some 39.0438%Q) (Some (-77.4874)%Q) (Some 100%Q) (Some true)
      (Some (mkDate 2020 6 15)) (Some 100%Q);
    CleanDc.mk (Some "Oregon Data Hub") (Some "Meta") (Some "Prineville")
      (Some "OR") (Some 44.2999%Q) (Some (-120.8342)%Q) (Some 100%Q) (Some false)
      None None ].

Definition sample_files : processed_dir :=
  mkProcessed (Some sample_clean_prices) (Some sample_clean_datacenters).


Definition sample_db : Database :=
  mkDb []
    [ DimDate.mk 1 (mkDate 2020 1 1);
      DimDate.mk 2 (mkDate 2020 1 2);
      DimDate.mk 1217 (mkDate 2023 5 1) ]
    [] [] 1.


Definition sample_rnd : nat -> Q := fun _ => (1 # 2)%Q.

Lemma sample_rnd_unit n : (0 <= sample_rnd n < 1)%Q.
Proof. split; [discriminate | reflexivity]. Qed.

Lemma sample_dates_distinct : NoDup (map DimDate.full_date (dim_date sample_db)).
Proof.
  simpl. repeat constructor; simpl; intuition discriminate.
Qed.

Lemma clean_eia_prices_range_witness :
  result_of (clean_eia_prices sample_fs) = inr sample_clean_prices
  /\ eia_prices_clean_csv (processed (state_of (clean_eia_prices sample_fs)))
     = Some sample_clean_prices.
Proof.
  split; [reflexivity|].
  exact (proj1 (clean_eia_prices_range sample_fs sample_clean_prices eq_refl)).
Defined.

Lemma clean_datacenter_data_bounds_witness :
  result_of (clean_datacenter_data sample_fs) = inr sample_clean_datacenters
  /\ datacenters_clean_csv (processed (state_of (clean_datacenter_data sample_fs)))
     = Some sample_clean_datacenters.
Proof.
  split; [reflexivity|].
  exact (proj1 (clean_datacenter_data_bounds sample_fs sample_clean_datacenters eq_refl)).
Defined.

Lemma renewable_pct_clamped_witness :
  result_of (clean_datacenter_data sample_fs) = inr sample_clean_datacenters
  /\ forall r p, In r sample_clean_datacenters ->
                 CleanDc.renewable_pct r = Some p -> (0 <= p <= 100)%Q.
Proof.
  split; [reflexivity|].
  exact (proj1 (renewable_pct_clamped sample_fs sample_clean_datacenters eq_refl)).
Defined.

(** The warehouse after the facility table was loaded. *)
Definition sample_loaded : Session :=
  state_of (load_datacenters sample_files (connect sample_db)).



Lemma load_prices_date_keys_witness :
  eia_prices_clean_csv sample_files = Some sample_clean_prices
  /\ NoDup (map DimDate.full_date (dim_date sample_db))
  /\ (exists loaded : list PriceFact.row,
        result_of (load_electricity_prices sample_files (connect sample_db))
        = inr (len loaded)
        /\ fact_electricity_prices
             (store (state_of (load_electricity_prices sample_files
                                 (connect sample_db))))
           = fact_electricity_prices sample_db ++ loaded)
  /\ exists loaded : list PriceFact.row,
       result_of (load_eia_prices (Some sample_clean_prices) sample_db)
       = inr (len loaded)
       /\ fact_electricity_prices
            (state_of (load_eia_prices (Some sample_clean_prices) sample_db))
          = fact_electricity_prices sample_db ++ loaded.
Proof.
  split; [reflexivity|]. split; [exact sample_dates_distinct|].
  destruct (load_prices_date_keys sample_clean_prices) as [Hrow Hbulk].
  split.
  - destruct (Hrow sample_files (connect sample_db) eq_refl) as (l & H1 & H2 & _).
    exists l. split; assumption.
  - destruct (Hbulk sample_db sample_dates_distinct) as (l & H1 & H2 & _).
    exists l. split; assumption.
Defined.






Lemma cleaning_twice_witness :
  raw_dir (state_of (run_all_cleaning sample_fs)) = raw_dir sample_fs
  /\ run_all_cleaning (state_of (run_all_cleaning sample_fs))
     = run_all_cleaning sample_fs.
Proof.
  split; [reflexivity|].
  apply (cleaning_twice sample_fs (state_of (run_all_cleaning sample_fs)) eq_refl).
Defined.

(** ** Where the code departs from the specification *)






(** * Further properties of the cleaner *)

Lemma max_by_ctime_greatest (l : list raw_file) : forall f g,
  In g (f :: l) -> ctime g <= ctime (max_by_ctime f l).
Proof.
  induction l as [|h l IH]; simpl; intros f g Hg.
  - destruct Hg as [<-|[]]. lia.
  - destruct (Z.ltb_spec (ctime f) (ctime h)) as [Hlt|Hge].
    + destruct Hg as [<-|[<-|Hg]].
      * specialize (IH h h (or_introl eq_refl)). lia.
      * apply IH. now left.
      * apply IH. now right.
    + destruct Hg as [<-|[<-|Hg]].
      * apply IH. now left.
      * specialize (IH f f (or_introl eq_refl)). lia.
      * apply IH. now right.
Qed.

(** X1.  [get_latest_file] never changes the file system.  When no file of
    the raw directory matches the pattern it raises [FileNotFoundError];
    otherwise the file it returns is in the raw directory, matches the
    pattern, and no matching file has a greater creation time. *)
Theorem get_latest_file_latest pfx sfx fs :
  state_of (get_latest_file pfx sfx fs) = fs
  /\ ((forall g, In g (raw_dir fs) -> glob_match pfx sfx (path g) = false) ->
      result_of (get_latest_file pfx sfx fs)
      = inl (FileNotFoundError ("No files found matching: " ++ pfx ++ "*" ++ sfx)))
  /\ ((exists g, In g (raw_dir fs) /\ glob_match pfx sfx (path g) = true) ->
      exists f, result_of (get_latest_file pfx sfx fs) = inr f)
  /\ forall f,
       result_of (get_latest_file pfx sfx fs) = inr f ->
       In f (raw_dir fs) /\ glob_match pfx sfx (path f) = true
       /\ forall g, In g (raw_dir fs) -> glob_match pfx sfx (path g) = true ->
                    ctime g <= ctime f.
Proof.
  unfold get_latest_file, bind, get, ret, raise, state_of, result_of. simpl.
  destruct (filter (fun f => glob_match pfx sfx (path f)) (raw_dir fs))
    as [|f0 rest] eqn:Hf; simpl.
  - split; [reflexivity|]. split; [reflexivity|]. split.
    + intros (g & Hg & Hm).
      assert (Hin : In g (filter (fun f => glob_match pfx sfx (path f)) (raw_dir fs)))
        by (apply filter_In; auto).
      rewrite Hf in Hin. destruct Hin.
    + intros f H. discriminate.
  - split; [reflexivity|]. split.
    + intros Hnone.
      assert (Hin : In f0 (filter (fun f => glob_match pfx sfx (path f)) (raw_dir fs)))
        by (rewrite Hf; now left).
      apply filter_In in Hin. destruct Hin as [Hin Hm].
      rewrite (Hnone f0 Hin) in Hm. discriminate.
    + split; [eauto|].
      intros f H. inversion H; subst f.
      assert (Hsub : forall g, In g (f0 :: rest) ->
                In g (raw_dir fs) /\ glob_match pfx sfx (path g) = true).
      { intros g Hg. rewrite <- Hf in Hg. now apply filter_In in Hg. }
      assert (Hmax : In (max_by_ctime f0 rest) (f0 :: rest)).
      { apply max_by_ctime_In. auto. }
      destruct (Hsub _ Hmax) as [Hin Hm].
      repeat split; auto.
      intros g Hg Hgm. apply max_by_ctime_greatest.
      rewrite <- Hf. apply filter_In. auto.
Qed.

(** The frame after the rename, row by row. *)
Definition renamed (x : RawPrice.row) (r : Price.row) : Prop :=
  exists y m,
    RawPrice.period x = Period y m
    /\ r = Price.mk (mkDate y m 1) (RawPrice.stateid x) (RawPrice.sectorName x)
             (RawPrice.price x) (RawPrice.sales x).

Lemma rename_and_parse_rows rows df :
  rename_and_parse rows = inr df -> Forall2 renamed rows df.
Proof.
  revert df. induction rows as [|x rows IH]; simpl; intros df H.
  - inversion H. constructor.
  - destruct (RawPrice.period x) as [y m|t] eqn:Hp; [|discriminate].
    destruct (rename_and_parse rows) as [e|out]; [discriminate|].
    inversion H; subst. constructor; [|now apply IH].
    exists y, m. auto.
Qed.

Lemma Forall2_filter_length {A B} (R : A -> B -> Prop) (p : A -> bool) (q : B -> bool)
  l1 l2 :
  Forall2 R l1 l2 -> (forall a b, R a b -> q b = p a) ->
  List.length (filter q l2) = List.length (filter p l1).
Proof.
  induction 1 as [|a b l1 l2 HR _ IH]; intros Hpq; simpl; [reflexivity|].
  rewrite (Hpq a b HR). destruct (p a); simpl; rewrite IH; auto.
Qed.

Lemma Forall2_length_eq {A B} (R : A -> B -> Prop) l1 l2 :
  Forall2 R l1 l2 -> List.length l1 = List.length l2.
Proof. induction 1; simpl; congruence. Qed.

Lemma filter_length_split {A} (p : A -> bool) l :
  (List.length (filter p l) + List.length (filter (fun x => negb (p x)) l)
   = List.length l)%nat.
Proof.
  induction l as [|x l IH]; simpl; [reflexivity|].
  destruct (p x); simpl; lia.
Qed.

Lemma isin_In s l : isin s l = true <-> exists x, s = Some x /\ In x l.
Proof.
  destruct s as [x|]; simpl.
  - rewrite existsb_exists. split.
    + intros (y & Hy & He). apply String.eqb_eq in He. subst y. eauto.
    + intros (y & Hy & Hin). inversion Hy; subst y.
      exists x. split; [exact Hin | apply String.eqb_refl].
  - split; [discriminate | intros (x & Hx & _); discriminate].
Qed.

(** What [clean_eia_prices] prints when it returns. *)
Lemma clean_eia_prices_printed fs out :
  result_of (clean_eia_prices fs) = inr out ->
  exists file rows n,
    In file (raw_dir fs) /\ content file = PriceCsv rows
    /\ clean_price_frame rows = inr (n, out)
    /\ output_of (clean_eia_prices fs)
       = [ Info "Cleaning EIA price data..." [];
           Info "Loaded records" [len rows];
           Info "Removed records with missing values" [n];
           Info "Saved clean records" [len out] ].
Proof.
  unfold clean_eia_prices, get_latest_file, bind, print, get, result_of, output_of.
  simpl.
  destruct (filter _ (raw_dir fs)) as [|f rest] eqn:Hf; simpl; [discriminate|].
  pose proof (latest_In _ _ _ _ Hf) as Hin.
  destruct (content (max_by_ctime f rest)) as [rows| |] eqn:Hc; simpl;
    try discriminate.
  unfold lift_result. destruct (clean_price_frame rows) as [e|[n df]] eqn:Hframe;
    simpl; [discriminate|].
  intros H. inversion H; subst.
  exists (max_by_ctime f rest), rows, n. auto.
Qed.

Lemma clean_price_frame_removed rows n out :
  clean_price_frame rows = inr (n, out) ->
  n = len (filter (fun x => negb (notna (RawPrice.price x)
                                  && notna (RawPrice.sales x))) rows).
Proof.
  unfold clean_price_frame.
  destruct (rename_and_parse rows) as [e|df] eqn:Hdf; [discriminate|].
  intros H. inversion H as [[Hn Hout]].
  pose proof (rename_and_parse_rows _ _ Hdf) as HF.
  unfold dropna_price, len.
  rewrite (Forall2_filter_length renamed
             (fun x => notna (RawPrice.price x) && notna (RawPrice.sales x))
             (fun r => notna (Price.price_cents_per_kwh r) && notna (Price.sales_mwh r))
             rows df HF).
  - rewrite <- (Forall2_length_eq _ _ _ HF).
    pose proof (filter_length_split
                  (fun x => notna (RawPrice.price x) && notna (RawPrice.sales x)) rows).
    lia.
  - intros a b (y & m & _ & ->). reflexivity.
Qed.

(** X2.  Every row [clean_eia_prices] returns carries a state code of
    [US_STATES] and a date that is the first day of a month, and the count
    it prints as removed for missing values is the number of snapshot rows
    whose price or sales volume is missing. *)
Theorem clean_eia_prices_states fs out :
  result_of (clean_eia_prices fs) = inr out ->
  (forall r, In r out ->
     day (CleanPrice.date r) = 1
     /\ exists st, CleanPrice.state r = Some st /\ In st US_STATES)
  /\ exists file rows,
       In file (raw_dir fs) /\ content file = PriceCsv rows
       /\ In (Info "Removed records with missing values"
                [len (filter (fun x => negb (notna (RawPrice.price x)
                                             && notna (RawPrice.sales x))) rows)])
            (output_of (clean_eia_prices fs)).
Proof.
  intros H.
  destruct (clean_eia_prices_printed fs out H)
    as (file & rows & n & Hin & Hc & Hf & Hout).
  split.
  - destruct (clean_price_frame_rows _ _ _ Hf) as (df & Hdf & ->).
    intros r Hr. apply in_map_iff in Hr. destruct Hr as (r0 & <- & Hr0).
    apply filter_In in Hr0. destruct Hr0 as [Hr0 Hk].
    unfold price_kept in Hk. apply andb_true_iff in Hk. destruct Hk as [_ Hst].
    destruct (rename_and_parse_In _ _ Hdf r0 Hr0) as (x & y & m & _ & _ & ->).
    apply isin_In in Hst. split; [reflexivity | exact Hst].
  - exists file, rows. split; [exact Hin|]. split; [exact Hc|].
    rewrite Hout, <- (clean_price_frame_removed _ _ _ Hf). in_output.
Qed.

Lemma clean_eia_prices_states_witness :
  result_of (clean_eia_prices sample_fs) = inr sample_clean_prices
  /\ forall r, In r sample_clean_prices ->
       day (CleanPrice.date r) = 1
       /\ exists st, CleanPrice.state r = Some st /\ In st US_STATES.
Proof.
  split; [reflexivity|].
  exact (proj1 (clean_eia_prices_states sample_fs sample_clean_prices eq_refl)).
Defined.

Lemma get_latest_file_run pfx sfx fs :
  get_latest_file pfx sfx fs = (fs, [], result_of (get_latest_file pfx sfx fs)).
Proof.
  unfold get_latest_file, bind, get, ret, raise, result_of. simpl.
  destruct (filter _ (raw_dir fs)); reflexivity.
Qed.

Lemma rename_and_parse_bad rows x t :
  In x rows -> RawPrice.period x = BadPeriod t ->
  exists t', rename_and_parse rows = inl (ValueError t').
Proof.
  induction rows as [|y rows IH]; intros Hin Hp; [destruct Hin|]. simpl.
  destruct (RawPrice.period y) as [yy m|t0] eqn:Hy; [|eauto].
  destruct Hin as [->|Hin]; [congruence|].
  destruct (IH Hin Hp) as (t' & ->). eauto.
Qed.

(** X3.  When a row of the latest price snapshot has a period that does
    not parse, [clean_eia_prices] raises [ValueError] and writes nothing,
    whatever the price and sales volume of that row: the date conversion
    comes before the filters. *)
Theorem clean_eia_prices_bad_period fs file rows x t :
  result_of (get_latest_file "eia_electricity_prices_" ".csv" fs) = inr file ->
  content file = PriceCsv rows ->
  In x rows -> RawPrice.period x = BadPeriod t ->
  (exists t', result_of (clean_eia_prices fs) = inl (ValueError t'))
  /\ state_of (clean_eia_prices fs) = fs.
Proof.
  intros Hfile Hc Hx Hp.
  destruct (rename_and_parse_bad rows x t Hx Hp) as (t' & Hbad).
  assert (Hframe : clean_price_frame rows = inl (ValueError t')).
  { unfold clean_price_frame. now rewrite Hbad. }
  pose proof (get_latest_file_run "eia_electricity_prices_" ".csv" fs) as Hrun.
  rewrite Hfile in Hrun.
  unfold clean_eia_prices.
  rewrite (bind_inr _ _ fs fs [Info "Cleaning EIA price data..." []] tt eq_refl).
  rewrite (bind_inr _ _ _ _ _ _ Hrun). rewrite Hc.
  rewrite (bind_inr _ _ fs fs [Info "Loaded records" [len rows]] tt eq_refl).
  rewrite (bind_inl _ _ fs fs [] (ValueError t')).
  - unfold result_of, state_of. simpl. eauto.
  - unfold lift_result. now rewrite Hframe.
Qed.

Definition sample_fs_bad_period : filesystem :=
  mkFs
    [ mkRawFile "eia_electricity_prices_20240501_120000.csv" 500
        (PriceCsv
           [ RawPrice.mk (Period 2023 5) (Some "VA") (Some "all sectors")
               (Some 12.5%Q) (Some 9500%Q);
             RawPrice.mk (BadPeriod "2023") (Some "VA") (Some "all sectors")
               None None ]) ]
    (mkProcessed None None).

Lemma clean_eia_prices_bad_period_witness :
  state_of (clean_eia_prices sample_fs_bad_period) = sample_fs_bad_period.
Proof.
  refine (proj2 (clean_eia_prices_bad_period sample_fs_bad_period
                   (mkRawFile "eia_electricity_prices_20240501_120000.csv" 500
                      (PriceCsv
                         [ RawPrice.mk (Period 2023 5) (Some "VA") (Some "all sectors")
                             (Some 12.5%Q) (Some 9500%Q);
                           RawPrice.mk (BadPeriod "2023") (Some "VA")
                             (Some "all sectors") None None ]))
                   _ (RawPrice.mk (BadPeriod "2023") (Some "VA") (Some "all sectors")
                        None None)
                   "2023" eq_refl eq_refl _ eq_refl)).
  right. left. reflexivity.
Defined.

(** The facility frame row by row: what [parse_opening_dates] makes of a
    row whose date parses or is blank. *)
Definition parsed_date (c : date_cell) : option date :=
  match c with DateCell d => Some d | _ => None end.

Definition dated (x : RawDc.row) (r : CleanDc.row) : Prop :=
  (forall t, RawDc.opening_date x <> BadCell t)
  /\ r = CleanDc.mk (RawDc.name x) (RawDc.company x) (RawDc.city x) (RawDc.state x)
           (RawDc.latitude x) (RawDc.longitude x) (RawDc.capacity_mw x)
           (RawDc.is_ai_focused x) (parsed_date (RawDc.opening_date x))
           (RawDc.renewable_pct x).

Lemma parse_opening_dates_rows df out :
  parse_opening_dates df = inr out -> Forall2 dated df out.
Proof.
  revert out. induction df as [|x df IH]; simpl; intros out H.
  - inversion H. constructor.
  - destruct (RawDc.opening_date x) eqn:Hd; try discriminate;
      destruct (parse_opening_dates df) as [e|out']; try discriminate;
      inversion H; subst; constructor; auto;
      (split; [intros t'; rewrite Hd; discriminate | rewrite Hd; reflexivity]).
Qed.


Lemma filter_map_commute {A B} (f : A -> B) (p : B -> bool) (q : A -> bool) l :
  (forall x, p (f x) = q x) -> filter p (map f l) = map f (filter q l).
Proof.
  intros H. induction l as [|x l IH]; simpl; [reflexivity|].
  rewrite H. destruct (q x); simpl; now rewrite IH.
Qed.

Lemma Forall2_map_left {A B C} (R : B -> C -> Prop) (f : A -> B) l out :
  Forall2 R (map f l) out -> Forall2 (fun x r => R (f x) r) l out.
Proof.
  revert out. induction l as [|x l IH]; simpl; intros out H; inversion H; subst;
    constructor; auto.
Qed.






(** What the cleaner makes of a facility row it keeps. *)
Definition cleaned_from (x : RawDc.row) (r : CleanDc.row) : Prop :=
  CleanDc.name r = RawDc.name x
  /\ CleanDc.company r = RawDc.company x
  /\ CleanDc.city r = RawDc.city x
  /\ CleanDc.state r = option_map (fun s => strip (upper s)) (RawDc.state x)
  /\ CleanDc.latitude r = RawDc.latitude x
  /\ CleanDc.longitude r = RawDc.longitude x
  /\ CleanDc.capacity_mw r = RawDc.capacity_mw x
  /\ CleanDc.is_ai_focused r = RawDc.is_ai_focused x
  /\ CleanDc.opening_date r = parsed_date (RawDc.opening_date x)
  /\ clamped_pct (RawDc.renewable_pct x) (CleanDc.renewable_pct r).

(** X5.  The table [clean_datacenter_data] returns has, in snapshot order,
    one row for each snapshot row inside the bounding box.  The row keeps
    name, company, city, coordinates, capacity and AI flag; its state is
    the snapshot's upper-cased and stripped; a blank opening date stays
    missing; the renewable percentage is missing when the snapshot's is
    missing, 0 when it is below 0, unchanged when it lies from 0 to 100,
    and 100 when it is above 100. *)
Theorem clean_datacenter_data_cells fs out :
  result_of (clean_datacenter_data fs) = inr out ->
  exists file rows,
    In file (raw_dir fs) /\ content file = DatacenterCsv rows
    /\ Forall2 cleaned_from (filter in_bounds rows) out.
Proof.
  intros H.
  destruct (clean_datacenter_data_inv fs out H) as (file & rows & Hin & Hc & Hf & _).
  exists file, rows. split; [exact Hin|]. split; [exact Hc|].
  unfold clean_datacenter_frame in Hf.
  apply parse_opening_dates_rows in Hf.
  rewrite (filter_map_commute normalize_state in_bounds in_bounds) in Hf
    by apply in_bounds_normalize.
  rewrite map_map in Hf. apply Forall2_map_left in Hf.
  eapply Forall2_impl; [|exact Hf].
  intros x r [_ ->]. unfold cleaned_from. cbn [CleanDc.name CleanDc.company
    CleanDc.city CleanDc.state CleanDc.latitude CleanDc.longitude
    CleanDc.capacity_mw CleanDc.is_ai_focused CleanDc.opening_date
    CleanDc.renewable_pct clip_renewable normalize_state RawDc.name RawDc.company
    RawDc.city RawDc.state RawDc.latitude RawDc.longitude RawDc.capacity_mw
    RawDc.is_ai_focused RawDc.opening_date RawDc.renewable_pct].
  repeat (split; [reflexivity|]). apply clip_clamped_pct.
Qed.

Lemma clean_datacenter_data_cells_witness :
  result_of (clean_datacenter_data sample_fs) = inr sample_clean_datacenters
  /\ exists file rows,
       In file (raw_dir sample_fs) /\ content file = DatacenterCsv rows
       /\ Forall2 cleaned_from (filter in_bounds rows) sample_clean_datacenters.
Proof.
  split; [reflexivity|].
  exact (clean_datacenter_data_cells sample_fs sample_clean_datacenters eq_refl).
Defined.

(** ** Normalising the state code *)

Lemma upper_ascii_idem c : upper_ascii (upper_ascii c) = upper_ascii c.
Proof. destruct c as [[] [] [] [] [] [] [] []]; reflexivity. Qed.

Lemma is_space_upper c : is_space (upper_ascii c) = is_space c.
Proof. destruct c as [[] [] [] [] [] [] [] []]; reflexivity. Qed.

Lemma upper_idem s : upper (upper s) = upper s.
Proof. induction s as [|c s IH]; simpl; [reflexivity|]. now rewrite upper_ascii_idem, IH. Qed.

Lemma upper_lstrip s : upper (lstrip s) = lstrip (upper s).
Proof.
  induction s as [|c s IH]; simpl; [reflexivity|].
  rewrite is_space_upper. destruct (is_space c); [exact IH | reflexivity].
Qed.

Lemma upper_rstrip s : upper (rstrip s) = rstrip (upper s).
Proof.
  induction s as [|c s IH]; simpl; [reflexivity|].
  rewrite <- IH, is_space_upper.
  destruct (rstrip s) as [|a t]; simpl; [|reflexivity].
  destruct (is_space c); reflexivity.
Qed.

Lemma upper_strip s : upper (strip s) = strip (upper s).
Proof. unfold strip. now rewrite upper_rstrip, upper_lstrip. Qed.

Lemma rstrip_idem s : rstrip (rstrip s) = rstrip s.
Proof.
  induction s as [|c s IH]; simpl; [reflexivity|].
  destruct (rstrip s) as [|a t] eqn:E.
  - destruct (is_space c) eqn:Hc; simpl; [reflexivity|]. now rewrite Hc.
  - simpl. simpl in IH. now rewrite IH.
Qed.

Lemma lstrip_head s :
  lstrip s = EmptyString
  \/ exists c t, lstrip s = String c t /\ is_space c = false.
Proof.
  induction s as [|c s IH]; simpl; [now left|].
  destruct (is_space c) eqn:Hc; [exact IH|]. right. eauto.
Qed.

Lemma rstrip_head c t :
  is_space c = false -> exists t', rstrip (String c t) = String c t'.
Proof.
  intros Hc. simpl. destruct (rstrip t); [rewrite Hc|]; eauto.
Qed.

Lemma strip_idem s : strip (strip s) = strip s.
Proof.
  unfold strip.
  assert (H : lstrip (rstrip (lstrip s)) = rstrip (lstrip s)).
  { destruct (lstrip_head s) as [->|(c & t & -> & Hc)]; [reflexivity|].
    destruct (rstrip_head c t Hc) as (t' & ->). simpl. now rewrite Hc. }
  rewrite H. apply rstrip_idem.
Qed.

(** X6.  The normalisation of the state code in [clean_datacenter_data]
    (upper-case, then strip) is idempotent: a code that went through it is
    left as it is by a second pass. *)
Theorem normalize_state_idem (r : RawDc.row) :
  normalize_state (normalize_state r) = normalize_state r
  /\ forall s, strip (upper (strip (upper s))) = strip (upper s).
Proof.
  assert (H : forall s, strip (upper (strip (upper s))) = strip (upper s)).
  { intros s. now rewrite upper_strip, upper_idem, strip_idem. }
  split; [|exact H].
  unfold normalize_state. simpl. f_equal.
  destruct (RawDc.state r) as [s|]; simpl; [|reflexivity]. now rewrite H.
Qed.

(** ** Where a cleaning run stops *)

Lemma clean_eia_prices_result raw p :
  result_of (clean_eia_prices (mkFs raw p)) = result_of (clean_eia_prices (fresh raw)).
Proof. now rewrite clean_eia_prices_shape. Qed.

Lemma clean_datacenter_data_result raw p :
  result_of (clean_datacenter_data (mkFs raw p))
  = result_of (clean_datacenter_data (fresh raw)).
Proof. now rewrite clean_datacenter_data_shape. Qed.

(** X7.  [run_all_cleaning] stops at the first step that raises.  When
    [clean_eia_prices] raises, the run raises the same exception and the
    file system is untouched.  When [clean_eia_prices] returns and
    [clean_datacenter_data] raises, the run raises that exception, the
    cleaned price file has already been replaced and the cleaned facility
    file is the one from before.  When both return, both cleaned files hold
    the tables returned. *)
Theorem run_all_cleaning_steps fs :
  (forall e,
     result_of (clean_eia_prices fs) = inl e ->
     result_of (run_all_cleaning fs) = inl e
     /\ state_of (run_all_cleaning fs) = fs)
  /\ (forall df1 e,
        result_of (clean_eia_prices fs) = inr df1 ->
        result_of (clean_datacenter_data fs) = inl e ->
        result_of (run_all_cleaning fs) = inl e
        /\ processed (state_of (run_all_cleaning fs))
           = mkProcessed (Some df1) (datacenters_clean_csv (processed fs)))
  /\ (forall df1 df2,
        result_of (clean_eia_prices fs) = inr df1 ->
        result_of (clean_datacenter_data fs) = inr df2 ->
        result_of (run_all_cleaning fs) = inr (df1, df2)
        /\ processed (state_of (run_all_cleaning fs))
           = mkProcessed (Some df1) (Some df2)).
Proof.
  destruct fs as [raw p].
  rewrite clean_eia_prices_result, clean_datacenter_data_result,
    run_all_cleaning_cleaned.
  unfold cleaned. cbn [processed].
  destruct (result_of (clean_eia_prices (fresh raw))) as [e1|d1];
    [|destruct (result_of (clean_datacenter_data (fresh raw))) as [e2|d2]];
    repeat split; intros; unfold result_of, state_of in *; simpl in *;
    try discriminate; congruence.
Qed.

(** * Further properties of the loader *)

(** What [load_datacenters] makes of a cleaned facility row. *)
Definition loaded_from (r : CleanDc.row) (row : DimDatacenter.row) : Prop :=
  DimDatacenter.name row = CleanDc.name r
  /\ DimDatacenter.company row = CleanDc.company r
  /\ DimDatacenter.location_city row = CleanDc.city r
  /\ DimDatacenter.location_state row = CleanDc.state r
  /\ DimDatacenter.latitude row = CleanDc.latitude r
  /\ DimDatacenter.longitude row = CleanDc.longitude r
  /\ DimDatacenter.capacity_mw row = CleanDc.capacity_mw r
  /\ DimDatacenter.opening_date row = CleanDc.opening_date r
  /\ DimDatacenter.renewable_energy_pct row = CleanDc.renewable_pct r
  /\ DimDatacenter.is_ai_focused row
     = Some (match CleanDc.is_ai_focused r with Some b => b | None => true end).

Lemma number_from_loaded df : forall next,
  Forall2 loaded_from df (number_from next (map to_dim_datacenter df)).
Proof.
  induction df as [|r df IH]; intros next; simpl; constructor; auto.
  unfold loaded_from, to_dim_datacenter. simpl.
  destruct (CleanDc.is_ai_focused r); repeat split.
Qed.

(** X8.  [load_datacenters] returns the number of rows of the cleaned
    facility file and appends them, in order, after the rows already in the
    Datacenter table, leaving the other tables alone.  Each appended row
    carries the cells of its cleaned row under the warehouse names; a
    missing AI flag is loaded as true. *)
Theorem load_datacenters_rows files df s :
  datacenters_clean_csv files = Some df ->
  result_of (load_datacenters files s) = inr (len df)
  /\ exists new,
       dim_datacenters (store (state_of (load_datacenters files s)))
       = dim_datacenters (store s) ++ new
       /\ Forall2 loaded_from df new
       /\ dim_date (store (state_of (load_datacenters files s))) = dim_date (store s)
       /\ fact_electricity_prices (store (state_of (load_datacenters files s)))
          = fact_electricity_prices (store s)
       /\ fact_energy_consumption (store (state_of (load_datacenters files s)))
          = fact_energy_consumption (store s).
Proof.
  intros H. rewrite (load_datacenters_ok files df s H).
  unfold result_of, state_of. simpl. split; [reflexivity|].
  eexists. split; [reflexivity|]. split; [apply number_from_loaded|].
  repeat split.
Qed.

Lemma load_datacenters_rows_witness :
  datacenters_clean_csv sample_files = Some sample_clean_datacenters
  /\ result_of (load_datacenters sample_files (connect sample_db)) = inr 2.
Proof.
  split; [reflexivity|].
  exact (proj1 (load_datacenters_rows sample_files sample_clean_datacenters
                  (connect sample_db) eq_refl)).
Defined.

(** X9.  The price loaders append and never look at what is already
    loaded: loading the same cleaned file a second time appends the same
    rows a second time, with the per-row loader and with the bulk loader
    alike. *)
Theorem reload_appends_again files df s :
  eia_prices_clean_csv files = Some df ->
  (exists loaded,
     fact_electricity_prices (store (state_of (load_electricity_prices files s)))
     = fact_electricity_prices (store s) ++ loaded
     /\ fact_electricity_prices
          (store (state_of (load_electricity_prices files
                              (state_of (load_electricity_prices files s)))))
        = fact_electricity_prices (store s) ++ loaded ++ loaded
     /\ result_of (load_electricity_prices files
                     (state_of (load_electricity_prices files s)))
        = result_of (load_electricity_prices files s))
  /\ exists loaded,
       fact_electricity_prices (state_of (load_eia_prices (Some df) (store s)))
       = fact_electricity_prices (store s) ++ loaded
       /\ fact_electricity_prices
            (state_of (load_eia_prices (Some df)
                         (state_of (load_eia_prices (Some df) (store s)))))
          = fact_electricity_prices (store s) ++ loaded ++ loaded
       /\ result_of (load_eia_prices (Some df)
                       (state_of (load_eia_prices (Some df) (store s))))
          = result_of (load_eia_prices (Some df) (store s)).
Proof.
  intros Hfile. split.
  - destruct (load_electricity_prices_run files df s Hfile)
      as (s1 & out1 & Hrun1 & Hst1 & _ & _).
    destruct (load_electricity_prices_run files df s1 Hfile)
      as (s2 & out2 & Hrun2 & Hst2 & _ & _).
    exists (per_row_facts (store s) df).
    assert (E : per_row_facts (store s1) df = per_row_facts (store s) df).
    { rewrite Hst1. now rewrite !per_row_facts_keyed. }
    rewrite E in Hrun2, Hst2.
    rewrite Hrun1. unfold state_of, result_of. cbn [fst snd]. rewrite Hrun2.
    cbn [fst snd]. rewrite Hst2, Hst1. simpl. rewrite <- app_assoc. auto.
  - destruct (load_eia_prices_run df (store s)) as (out1 & Hrun1 & _).
    destruct (load_eia_prices_run df
                (append_prices (bulk_facts (dim_date (store s)) df) (store s)))
      as (out2 & Hrun2 & _).
    exists (bulk_facts (dim_date (store s)) df).
    rewrite Hrun1. unfold state_of, result_of. cbn [fst snd]. rewrite Hrun2.
    simpl. rewrite <- app_assoc. auto.
Qed.

Lemma reload_appends_again_witness :
  eia_prices_clean_csv sample_files = Some sample_clean_prices
  /\ exists loaded : list PriceFact.row,
       fact_electricity_prices
         (store (state_of (load_electricity_prices sample_files
                  (state_of (load_electricity_prices sample_files
                               (connect sample_db))))))
       = fact_electricity_prices sample_db ++ loaded ++ loaded.
Proof.
  split; [reflexivity|].
  destruct (proj1 (reload_appends_again sample_files sample_clean_prices
                     (connect sample_db) eq_refl)) as (loaded & _ & H2 & _).
  exists loaded. exact H2.
Defined.



(** ** The values stored with an estimate *)

Lemma round_half_even_near (q : Q) :
  Qfloor q <= round_half_even q <= Qfloor q + 1.
Proof.
  unfold round_half_even. cbv zeta.
  destruct (q - inject_Z (Qfloor q) ?= 1 # 2)%Q; [|lia|lia].
  destruct (Z.even (Qfloor q)); lia.
Qed.

Lemma round_half_even_mono (x y : Q) :
  (x <= y)%Q -> round_half_even x <= round_half_even y.
Proof.
  intros Hxy.
  pose proof (Qfloor_resp_le x y Hxy) as Hfl.
  pose proof (round_half_even_near x) as Hx.
  pose proof (round_half_even_near y) as Hy.
  destruct (Z.eq_dec (Qfloor x) (Qfloor y)) as [E|NE]; [|lia].
  unfold round_half_even in *. cbv zeta in *. rewrite <- E in *.
  remember (inject_Z (Qfloor x)) as n.
  destruct (Qcompare_spec (x - n) (1 # 2)) as [Ex|Lx|Gx];
    destruct (Qcompare_spec (y - n) (1 # 2)) as [Ey|Ly|Gy];
    try lia; try (exfalso; lra);
    destruct (Z.even (Qfloor x)); lia.
Qed.

Lemma round2_mono (x y : Q) :
  (x <= y)%Q ->
  exists a b, round2 (Some x) = Some a /\ round2 (Some y) = Some b /\ (a <= b)%Q.
Proof.
  intros Hxy. eexists _, _. split; [reflexivity|]. split; [reflexivity|].
  assert (H : round_half_even (x * 100) <= round_half_even (y * 100)).
  { apply round_half_even_mono. lra. }
  rewrite Zle_Qle in H.
  remember (inject_Z (round_half_even (x * 100))) as a.
  remember (inject_Z (round_half_even (y * 100))) as b.
  unfold Qdiv. change (/ 100)%Q with (1 # 100)%Q. lra.
Qed.

Lemma round2_nonneg (x : Q) :
  (0 <= x)%Q -> exists a, round2 (Some x) = Some a /\ (0 <= a)%Q.
Proof.
  intros Hx. destruct (round2_mono 0 x Hx) as (z & a & Hz & Ha & Hza).
  exists a. split; [exact Ha|]. inversion Hz; subst z.
  eapply Qle_trans; [|exact Hza]. discriminate.
Qed.

(** X11.  The values [generate_sample_energy_consumption] stores are
    consistent after rounding: the stored PUE lies in [1.15, 1.30] for an
    AI-focused datacenter and in [1.35, 1.60] otherwise, and for a
    datacenter with a capacity that is present and not negative and a
    renewable percentage that is missing or in [0, 100], energy and
    renewable energy are present with 0 <= renewable energy <= energy. *)
Theorem stored_estimates_bounds rnd s :
  (forall n, (0 <= rnd n < 1)%Q) ->
  exists new,
    fact_energy_consumption
      (store (state_of (generate_sample_energy_consumption rnd s)))
    = fact_energy_consumption (store s) ++ new
    /\ forall f, In f new ->
         exists dc,
           In dc (dim_datacenters (store s))
           /\ ConsumptionFact.datacenter_id f = DimDatacenter.datacenter_id dc
           /\ (exists q, ConsumptionFact.pue_ratio f = Some q
                         /\ if truthy (DimDatacenter.is_ai_focused dc)
                            then (1.15 <= q <= 1.30)%Q
                            else (1.35 <= q <= 1.60)%Q)
           /\ (forall c,
                 DimDatacenter.capacity_mw dc = Some c -> (0 <= c)%Q ->
                 match DimDatacenter.renewable_energy_pct dc with
                 | Some p => (0 <= p <= 100)%Q
                 | None => True
                 end ->
                 exists e r,
                   ConsumptionFact.energy_consumed_mwh f = Some e
                   /\ ConsumptionFact.renewable_energy_mwh f = Some r
                   /\ (0 <= r <= e)%Q).
Proof.
  intros Hrnd.
  destruct (generate_run rnd (fun r => (0 <= r < 1)%Q) Hrnd s)
    as (k & out & new & Hrun & Hsound & _).
  exists new. rewrite Hrun. unfold state_of. simpl. split; [reflexivity|].
  intros f Hf.
  destruct (Hsound f Hf) as (dc & d & Hdc & _ & r1 & r2 & H1 & H2 & ->).
  exists dc. split; [exact Hdc|]. split; [reflexivity|].
  pose proof (estimate_from_draws_ranges dc r1 r2 H1 H2) as Hranges.
  destruct (estimate_from_draws_formula dc r1 r2) as [Hm Hr].
  cbv zeta in Hranges. simpl.
  remember (estimate_from_draws dc r1 r2) as e eqn:He.
  split.
  - destruct (truthy (DimDatacenter.is_ai_focused dc)).
    + destruct Hranges as [_ [Hp1 Hp2]].
      destruct (round2_bounds (pue e) 115 130) as (q & Hq & Hq1 & Hq2).
      * change (inject_Z 115) with 115%Q. lra.
      * change (inject_Z 130) with 130%Q. lra.
      * exists q. split; [exact Hq|].
        assert (E1 : (inject_Z 115 / 100 == 1.15)%Q) by reflexivity.
        assert (E2 : (inject_Z 130 / 100 == 1.30)%Q) by reflexivity.
        rewrite E1 in Hq1. rewrite E2 in Hq2. split; assumption.
    + destruct Hranges as [_ [Hp1 Hp2]].
      destruct (round2_bounds (pue e) 135 160) as (q & Hq & Hq1 & Hq2).
      * change (inject_Z 135) with 135%Q. lra.
      * change (inject_Z 160) with 160%Q. lra.
      * exists q. split; [exact Hq|].
        assert (E1 : (inject_Z 135 / 100 == 1.35)%Q) by reflexivity.
        assert (E2 : (inject_Z 160 / 100 == 1.60)%Q) by reflexivity.
        rewrite E1 in Hq1. rewrite E2 in Hq2. split; assumption.
  - intros c Hc Hc0 Hpct. rewrite Hr, Hm, Hc.
    assert (Hu : (0 <= utilization e)%Q).
    { destruct (truthy (DimDatacenter.is_ai_focused dc));
        destruct Hranges as [[Hu _] _]; lra. }
    remember (utilization e) as u.
    assert (Hmon : (0 <= c * inject_Z 730 * u)%Q).
    { change (inject_Z 730) with 730%Q.
      apply Qmult_le_0_compat; [|exact Hu]. lra. }
    remember (c * inject_Z 730 * u)%Q as m.
    assert (Hk : exists kq, fdiv (match DimDatacenter.renewable_energy_pct dc with
                                  | Some p => Some p
                                  | None => of_int 0
                                  end) (of_int 100) = Some kq
                            /\ (0 <= kq <= 1)%Q).
    { destruct (DimDatacenter.renewable_energy_pct dc) as [p|]; simpl.
      - eexists. split; [reflexivity|]. unfold Qdiv.
        change (/ inject_Z 100)%Q with (1 # 100)%Q. lra.
      - eexists. split; [reflexivity|]. split; discriminate. }
    destruct Hk as (kq & -> & Hk0 & Hk1). simpl. rewrite <- Heqm.
    assert (Hmk0 : (0 <= m * kq)%Q) by (apply Qmult_le_0_compat; assumption).
    assert (Hmk1 : (m * kq <= m)%Q).
    { assert (H : (kq * m <= 1 * m)%Q) by (apply Qmult_le_compat_r; assumption).
      remember (kq * m)%Q as km eqn:Hkm.
      assert (E : (m * kq == km)%Q) by (rewrite Hkm; ring).
      rewrite E. lra. }
    destruct (round2_mono (m * kq) m Hmk1) as (r & en & Hr' & Hen & Hle).
    destruct (round2_nonneg (m * kq) Hmk0) as (r0 & Hr0 & Hr0pos).
    simpl in Hr', Hen, Hr0.
    exists en, r. split; [exact Hen|]. split; [exact Hr'|].
    inversion Hr'; inversion Hr0; subst. split; assumption.
Qed.

Lemma stored_estimates_bounds_witness :
  (forall n, (0 <= sample_rnd n < 1)%Q)
  /\ exists new : list ConsumptionFact.row,
       fact_energy_consumption
         (store (state_of (generate_sample_energy_consumption sample_rnd
                             sample_loaded)))
       = fact_energy_consumption (store sample_loaded) ++ new.
Proof.
  split; [exact sample_rnd_unit|].
  destruct (stored_estimates_bounds sample_rnd sample_loaded sample_rnd_unit)
    as (new & Hnew & _).
  exists new. exact Hnew.
Defined.

(** ** The course of a full load *)

Lemma number_from_length df : forall next,
  List.length (number_from next df) = List.length df.
Proof. induction df as [|r df IH]; intros next; simpl; [reflexivity|]. now rewrite IH. Qed.

(** The run in which every step returns, with what it prints at the end. *)
Lemma load_all_success files rnd s dcs df :
  datacenters_clean_csv files = Some dcs ->
  eia_prices_clean_csv files = Some df ->
  exists s1 out new,
    load_all files rnd s = (s1, out, inr true)
    /\ store s1
       = append_consumption new
           (append_prices
              (per_row_facts (append_datacenters (map to_dim_datacenter dcs) (store s)) df)
              (append_datacenters (map to_dim_datacenter dcs) (store s)))
    /\ In (orphan_report (store s1)) out
    /\ In (Info "Summary"
             [len dcs;
              len (per_row_facts
                     (append_datacenters (map to_dim_datacenter dcs) (store s)) df);
              len new]) out.
Proof.
  intros Hdc Hp. unfold load_all.
  rewrite (bind_inr _ _ _ _ _ _ (load_datacenters_ok files dcs s Hdc)).
  set (s0 := mkSession (append_datacenters (map to_dim_datacenter dcs) (store s))
               (in_transaction s) (cursor_closed s) (conn_closed s) (rng_calls s)).
  destruct (load_electricity_prices_run files df s0 Hp)
    as (s2 & out2 & Hrun2 & Hst2 & _ & _).
  rewrite (bind_inr _ _ _ _ _ _ Hrun2).
  destruct (generate_run rnd (fun _ => True) (fun _ => I) s2)
    as (k & out3 & new & Hrun3 & _ & _).
  rewrite (bind_inr _ _ _ _ _ _ Hrun3).
  rewrite (bind_inr _ _ _ _ _ _ (verify_data_integrity_run _)).
  eexists _, _, new. split; [reflexivity|]. simpl.
  rewrite Hst2. simpl. split; [reflexivity|]. split; in_output.
Qed.




(** X14.  A full load only appends, and never writes the date dimension:
    whichever way it goes, the date dimension is the one it started from
    and each of the other three tables is the table it started from
    followed by the rows of the run.  When it returns [True], the summary
    it prints gives the numbers of rows it appended to the three tables. *)
Theorem run_full_load_appends files rnd s :
  dim_date (store (state_of (run_full_load files rnd s))) = dim_date (store s)
  /\ exists a b c,
       dim_datacenters (store (state_of (run_full_load files rnd s)))
       = dim_datacenters (store s) ++ a
       /\ fact_electricity_prices (store (state_of (run_full_load files rnd s)))
          = fact_electricity_prices (store s) ++ b
       /\ fact_energy_consumption (store (state_of (run_full_load files rnd s)))
          = fact_energy_consumption (store s) ++ c
       /\ (result_of (run_full_load files rnd s) = inr true ->
           In (Info "Summary" [len a; len b; len c])
             (output_of (run_full_load files rnd s))).
Proof.
  destruct (datacenters_clean_csv files) as [dcs|] eqn:Hdc.
  - destruct (eia_prices_clean_csv files) as [df|] eqn:Hp.
    + destruct (load_all_success files rnd s dcs df Hdc Hp)
        as (s1 & out & new & Hrun & Hst & _ & Hsum).
      destruct (run_full_load_run _ _ _ _ _ _ Hrun) as (out' & -> & Hincl & _).
      unfold result_of, state_of, output_of. simpl. rewrite Hst. simpl.
      split; [reflexivity|].
      eexists _, _, _.
      split; [reflexivity|]. split; [reflexivity|]. split; [reflexivity|].
      intros _. apply Hincl.
      unfold len at 1. rewrite number_from_length, length_map. exact Hsum.
    + pose proof (load_all_run files rnd s) as Hrun. rewrite Hdc, Hp in Hrun.
      destruct Hrun as (s1 & out & Hrun & Hst).
      destruct (run_full_load_run _ _ _ _ _ _ Hrun) as (out' & -> & _).
      unfold result_of, state_of. simpl. rewrite Hst. simpl.
      split; [reflexivity|].
      exists (number_from (next_datacenter_id (store s)) (map to_dim_datacenter dcs)),
        [], []. rewrite !app_nil_r.
      split; [reflexivity|]. split; [reflexivity|]. split; [reflexivity|].
      intros H; discriminate H.
  - pose proof (load_all_run files rnd s) as Hrun. rewrite Hdc in Hrun.
    destruct Hrun as (out & Hrun).
    destruct (run_full_load_run _ _ _ _ _ _ Hrun) as (out' & -> & _).
    unfold result_of, state_of. simpl. split; [reflexivity|].
    exists [], [], []. rewrite !app_nil_r.
    split; [reflexivity|]. split; [reflexivity|]. split; [reflexivity|].
    intros H; discriminate H.
Qed.

(** X15.  What a failed load leaves.  When the cleaned facility file is
    missing, [run_full_load] returns [False] and the store is the one it
    started from.  When the facility file is there and the price file is
    missing, it returns [False] and the store is the one it started from
    with the facility rows appended to the Datacenter table: the rollback
    does not take them back. *)
Theorem run_full_load_missing_file files rnd s :
  (datacenters_clean_csv files = None ->
   result_of (run_full_load files rnd s) = inr false
   /\ store (state_of (run_full_load files rnd s)) = store s)
  /\ (forall dcs,
        datacenters_clean_csv files = Some dcs ->
        eia_prices_clean_csv files = None ->
        result_of (run_full_load files rnd s) = inr false
        /\ store (state_of (run_full_load files rnd s))
           = append_datacenters (map to_dim_datacenter dcs) (store s)
        /\ exists new,
             dim_datacenters (store (state_of (run_full_load files rnd s)))
             = dim_datacenters (store s) ++ new
             /\ Forall2 loaded_from dcs new).
Proof.
  pose proof (load_all_run files rnd s) as Hrun. split.
  - intros Hdc. rewrite Hdc in Hrun. destruct Hrun as (out & Hrun).
    destruct (run_full_load_run _ _ _ _ _ _ Hrun) as (out' & -> & _).
    unfold result_of, state_of. simpl. auto.
  - intros dcs Hdc Hp. rewrite Hdc, Hp in Hrun.
    destruct Hrun as (s1 & out & Hrun & Hst).
    destruct (run_full_load_run _ _ _ _ _ _ Hrun) as (out' & -> & _).
    unfold result_of, state_of. simpl. rewrite Hst.
    split; [reflexivity|]. split; [reflexivity|].
    eexists. split; [reflexivity|]. apply number_from_loaded.
Qed.

(** ** The bulk loader's warning and count *)

Lemma bulk_facts_length dim df :
  List.length (bulk_facts dim df)
  = list_sum (map (fun row => List.length (matches dim (CleanPrice.date row))) df).
Proof.
  unfold bulk_facts. induction df as [|row df IH]; simpl; [reflexivity|].
  now rewrite length_app, length_map, IH.
Qed.

Lemma bulk_facts_In dim df f :
  In f (bulk_facts dim df) <->
  exists row d,
    In row df /\ In d dim /\ DimDate.full_date d = CleanPrice.date row
    /\ f = PriceFact.mk (CleanPrice.state row) (DimDate.date_id d)
             (CleanPrice.price_per_kwh row) (CleanPrice.price_cents_per_kwh row)
             (CleanPrice.sales_mwh row) "average" (CleanPrice.sectorName row).
Proof.
  unfold bulk_facts, matches. rewrite in_flat_map. split.
  - intros (row & Hrow & Hf). apply in_map_iff in Hf.
    destruct Hf as (d & <- & Hd). apply filter_In in Hd. destruct Hd as [Hd Heq].
    apply date_eqb_eq in Heq. exists row, d. repeat split; auto.
  - intros (row & d & Hrow & Hd & Heq & ->). exists row. split; [exact Hrow|].
    apply in_map_iff. exists d. split; [reflexivity|].
    apply filter_In. split; [exact Hd | now apply date_eqb_eq].
Qed.

(** X16.  The bulk [load_eia_prices] loads each cleaned row once for every
    dimension row with its date (so twice, should a date be there twice)
    and returns that total: it appends to [fact_electricity_prices], after
    the rows already there and in the order of the cleaned table, one row
    per pair of a cleaned row and a dimension row of the same date, with
    the region, prices and sales volume of the cleaned row, the key of the
    dimension row, price type 'average' and the cleaned row's sectorName as
    sector; it changes no other table, and the number it returns is the
    number of rows appended.  When some rows have no match it prints one
    warning, which gives their number; when every row has a match it
    prints no warning. *)
Theorem bulk_loader_counts df db :
  result_of (load_eia_prices (Some df) db)
  = inr (Z.of_nat
           (list_sum (map (fun row =>
                             List.length (matches (dim_date db) (CleanPrice.date row)))
                        df)))
  /\ (0 < len (filter (fun row => negb (matched (dim_date db) row)) df) ->
      In (Warning "records have dates not in dim_date"
            [len (filter (fun row => negb (matched (dim_date db) row)) df)])
        (output_of (load_eia_prices (Some df) db))
      /\ warnings (output_of (load_eia_prices (Some df) db)) = 1%nat)
  /\ (len (filter (fun row => negb (matched (dim_date db) row)) df) = 0 ->
      warnings (output_of (load_eia_prices (Some df) db)) = 0%nat)
  /\ exists loaded : list PriceFact.row,
       state_of (load_eia_prices (Some df) db)
       = mkDb (dim_datacenters db) (dim_date db)
           (fact_electricity_prices db ++ loaded)
           (fact_energy_consumption db) (next_datacenter_id db)
       /\ result_of (load_eia_prices (Some df) db) = inr (len loaded)
       /\ loaded
          = flat_map (fun row =>
              map (fun d =>
                     PriceFact.mk (CleanPrice.state row) (DimDate.date_id d)
                       (CleanPrice.price_per_kwh row)
                       (CleanPrice.price_cents_per_kwh row)
                       (CleanPrice.sales_mwh row) "average"
                       (CleanPrice.sectorName row))
                (filter (fun d => date_eqb (DimDate.full_date d) (CleanPrice.date row))
                   (dim_date db))) df
       /\ forall f,
            In f loaded <->
            exists row d,
              In row df /\ In d (dim_date db)
              /\ DimDate.full_date d = CleanPrice.date row
              /\ f = PriceFact.mk (CleanPrice.state row) (DimDate.date_id d)
                       (CleanPrice.price_per_kwh row)
                       (CleanPrice.price_cents_per_kwh row)
                       (CleanPrice.sales_mwh row) "average"
                       (CleanPrice.sectorName row).
Proof.
  rewrite <- !and_assoc. split.
  2:{ destruct (load_eia_prices_run df db) as (out & Hrun & _).
      exists (bulk_facts (dim_date db) df). rewrite Hrun.
      unfold state_of, result_of. cbn [fst snd].
      split; [reflexivity|]. split; [reflexivity|]. split; [reflexivity|].
      intros f. apply bulk_facts_In. }
  rewrite and_assoc.
  destruct (merge_left_facts (dim_date db) df) as [Hframe Hmissing].
  assert (Hlen : len (filter (fun r => negb (notna (snd r))) (merge_left df (dim_date db)))
                 = len (filter (fun row => negb (matched (dim_date db) row)) df)).
  { unfold len. now rewrite Hmissing. }
  rewrite <- Hlen, <- bulk_facts_length.
  unfold load_eia_prices, read_csv, bind, print, get, ret, modify, lift_result,
    result_of, output_of.
  cbv beta iota zeta.
  destruct (0 <? len (filter (fun r => negb (notna (snd r)))
                        (merge_left df (dim_date db)))) eqn:E.
  - rewrite Hframe. simpl. split; [reflexivity|]. split.
    + intros _. split; [in_output | reflexivity].
    + intros H0. apply Z.ltb_lt in E. lia.
  - assert (Hnil : filter (fun r => negb (notna (snd r))) (merge_left df (dim_date db)) = []).
    { apply Z.ltb_ge in E.
      destruct (filter (fun r => negb (notna (snd r))) (merge_left df (dim_date db)));
        [reflexivity|].
      unfold len in E. simpl in E. lia. }
    apply filter_negb_nil in Hnil. rewrite Hnil in Hframe.
    rewrite Hframe. simpl. split; [reflexivity|]. split.
    + intros H0. apply Z.ltb_ge in E. lia.
    + intros _. reflexivity.
Qed.

(** ** From the cleaner to the warehouse *)





(** ** Silent drops and the exit status *)

Lemma existsb_filter_nil {A} (p : A -> bool) l :
  existsb p l = false <-> filter p l = [].
Proof.
  induction l as [|x l IH]; simpl; [tauto|].
  destruct (p x); simpl; [split; discriminate | exact IH].
Qed.

(** X18.  The per-row [load_electricity_prices] drops the rows without a
    match silently: as long as one row of the cleaned table has its date
    in the date dimension no warning is printed, however many rows are
    left out; the one warning it can print says that nothing was loaded. *)
Theorem per_row_loader_warns_only_when_empty files df s :
  eia_prices_clean_csv files = Some df ->
  warnings (output_of (load_electricity_prices files s))
  = (if existsb (matched (dim_date (store s))) df then 0%nat else 1%nat)
  /\ (existsb (matched (dim_date (store s))) df = false ->
      In (Warning "No price records to load" [])
        (output_of (load_electricity_prices files s))
      /\ store (state_of (load_electricity_prices files s)) = store s
      /\ result_of (load_electricity_prices files s) = inr 0).
Proof.
  intros Hfile.
  pose proof (keyed_facts_resolves retail_fact (dim_date (store s)) df retail_keeps)
    as Hres.
  apply Forall2_length_eq in Hres. rewrite <- per_row_facts_keyed in Hres.
  split.
  - destruct (load_electricity_prices_run files df s Hfile)
      as (s' & out & Hrun & _ & _ & Hw).
    rewrite Hrun. unfold output_of. simpl. rewrite Hw.
    destruct (existsb (matched (dim_date (store s))) df) eqn:E.
    + destruct (per_row_facts (store s) df) as [|f l] eqn:Hfacts.
      * simpl in Hres.
        destruct (filter (matched (dim_date (store s))) df) eqn:Hfil;
          [|discriminate].
        apply existsb_filter_nil in Hfil. congruence.
      * now rewrite len_pos_cons.
    + apply existsb_filter_nil in E. rewrite E in Hres.
      destruct (per_row_facts (store s) df); [reflexivity | discriminate].
  - intros E. apply existsb_filter_nil in E. rewrite E in Hres.
    assert (Hnil : per_row_facts (store s) df = []).
    { destruct (per_row_facts (store s) df); [reflexivity | discriminate]. }
    destruct (price_loop_run (len df) df 0 s) as (s1 & out1 & Hloop & Hst & _ & _).
    rewrite Hnil in Hloop.
    unfold load_electricity_prices, read_csv. rewrite Hfile.
    rewrite (bind_inr _ _ s s [Info "Loading electricity prices..." []] tt eq_refl).
    rewrite (bind_inr _ _ s s [] df eq_refl).
    rewrite (bind_inr _ _ s s [Info "Processing price records..." [len df]] tt eq_refl).
    rewrite (bind_inr _ _ _ _ _ _ Hloop).
    unfold output_of, state_of, result_of. simpl.
    split; [in_output|]. split; [exact Hst | reflexivity].
Qed.

Definition sample_clean_prices_mixed : list CleanPrice.row :=
  [ CleanPrice.mk (mkDate 2023 5 1) (Some "VA") (Some "all sectors")
      (Some 12.5%Q) (Some 9500%Q) (Some (12.5 / 100)%Q);
    CleanPrice.mk (mkDate 2023 6 1) (Some "VA") (Some "all sectors")
      (Some 12.7%Q) (Some 9700%Q) (Some (12.7 / 100)%Q);
    CleanPrice.mk (mkDate 2023 7 1) (Some "VA") (Some "all sectors")
      (Some 12.9%Q) (Some 9900%Q) (Some (12.9 / 100)%Q) ].

Lemma per_row_loader_warns_only_when_empty_witness :
  eia_prices_clean_csv (mkProcessed (Some sample_clean_prices_mixed) None)
  = Some sample_clean_prices_mixed
  /\ warnings (output_of (load_electricity_prices
                            (mkProcessed (Some sample_clean_prices_mixed) None)
                            (connect sample_db))) = 0%nat
  /\ result_of (load_electricity_prices
                  (mkProcessed (Some sample_clean_prices_mixed) None)
                  (connect sample_db)) = inr 1.
Proof.
  split; [reflexivity|]. split; [|reflexivity].
  exact (proj1 (per_row_loader_warns_only_when_empty
                  (mkProcessed (Some sample_clean_prices_mixed) None)
                  sample_clean_prices_mixed (connect sample_db) eq_refl)).
Defined.

(** X19.  The exit status of the loader script tells whether [config.py]
    could be imported and nothing else: it is 1 when the import fails, in
    which case the warehouse is not touched, and 0 whenever the import
    succeeds, whether the load returned [True] or [False]. *)
Theorem main_exit_status importable files rnd db :
  exit_status (main importable files rnd db) = (if importable then 0 else 1)
  /\ (importable = false ->
      store (final (main importable files rnd db)) = db
      /\ stdout (main importable files rnd db)
         = [Error "ERROR: Could not import config.py"])
  /\ (importable = true ->
      store (final (main importable files rnd db))
      = store (state_of (run_full_load files rnd (connect db)))
      /\ exists b,
           result_of (run_full_load files rnd (connect db)) = inr b
           /\ In (if b then Info "Ready for Power BI connection!" []
                  else Error "Loading failed. Check errors above.")
                (stdout (main importable files rnd db))).
Proof.
  destruct importable; unfold main; simpl negb; cbv iota.
  - assert (Hret : exists s1 out b,
               run_full_load files rnd (connect db) = (s1, out, inr b)).
    { pose proof (load_all_run files rnd (connect db)) as Hrun.
      destruct (datacenters_clean_csv files) as [dcs|].
      - destruct (eia_prices_clean_csv files) as [df|].
        + cbv zeta in Hrun. destruct Hrun as (s1 & out & new & Hrun & _).
          destruct (run_full_load_run _ _ _ _ _ _ Hrun) as (out' & -> & _). eauto.
        + destruct Hrun as (s1 & out & Hrun & _).
          destruct (run_full_load_run _ _ _ _ _ _ Hrun) as (out' & -> & _). eauto.
      - destruct Hrun as (out & Hrun).
        destruct (run_full_load_run _ _ _ _ _ _ Hrun) as (out' & -> & _). eauto. }
    destruct Hret as (s1 & out & b & ->).
    unfold state_of, result_of. destruct b; simpl.
    + split; [reflexivity|]. split; [discriminate|]. intros _.
      split; [reflexivity|]. exists true. split; [reflexivity|].
      apply in_or_app. right. now left.
    + split; [reflexivity|]. split; [discriminate|]. intros _.
      split; [reflexivity|]. exists false. split; [reflexivity|].
      apply in_or_app. right. now left.
  - simpl. split; [reflexivity|]. split; [auto | discriminate].
Qed.
